(** * Agente Fiscal: the audit engine of [agente_fiscal_langchain.py]

    A shallow embedding of the deterministic audit core of the repository
    (monetary normalisation, CNPJ/CPF check digits, CFOP membership, the
    OCR and the structured audit paths) together with the properties the
    specification states about it.

    Modelling conventions.
    - A Python [str] is a [string]; character-level operations go through
      its list of characters.  The model is exact on ASCII text: the
      accented letters of the messages are kept as their UTF-8 bytes, and
      non-ASCII digits or white space of the input are not recognised.
    - A value produced by [json.loads] is a [json]; numbers with a fraction
      or an exponent (Python floats) are not part of the model.
    - A Python exception is a [Raise] in the [result] monad.
    - [decimal.Decimal] follows the arithmetic of the standard library under
      the default context (28 digits, ROUND_HALF_EVEN, Emax 999999,
      traps on InvalidOperation, DivisionByZero and Overflow).
    - The NCM lookup [consultar_ncm] (module [tipi.consultartipi]) is a
      parameter of the engine. *)

From Stdlib Require Import ZArith NArith Ascii String List Lia Bool.
From stdpp Require Import base decidable option list gmap strings.

Local Open Scope Z_scope.
Set Warnings "-register-all".
Set Default Proof Using "Type".

(** ** Exceptions and the result monad *)

Inductive exn : Set :=
  | TypeError
  | AttributeError
  | InvalidOperation
  | Overflow.

Inductive result (A : Type) : Type :=
  | Ok (a : A)
  | Raise (e : exn).
Arguments Ok {A} a.
Arguments Raise {A} e.

Global Instance result_ret : MRet result := fun A a => Ok a.
Global Instance result_bind : MBind result := fun A B f m =>
  match m with
  | Ok a => f a
  | Raise e => Raise e
  end.

(** [try: m except es: h] runs [h] when [m] raises one of [es]. *)
Definition exn_eqb (a b : exn) : bool :=
  match a, b with
  | TypeError, TypeError | AttributeError, AttributeError
  | InvalidOperation, InvalidOperation | Overflow, Overflow => true
  | _, _ => false
  end.

Definition try_except {A} (m : result A) (es : list exn) (h : result A) : result A :=
  match m with
  | Ok a => Ok a
  | Raise e => if existsb (exn_eqb e) es then h else Raise e
  end.

(** ** Python strings *)

Module Str.

Definition chars (s : string) : list ascii := list_ascii_of_string s.
Definition of_chars (l : list ascii) : string := string_of_list_ascii l.

(** [str.isdigit] on one character. *)
Definition isdigit (c : ascii) : bool :=
  let n := N_of_ascii c in ((48 <=? n) && (n <=? 57))%N.

(** [str.isspace] on one character: TAB, LF, VT, FF, CR, FS, GS, RS, US and
    the blank. *)
Definition isspace (c : ascii) : bool :=
  let n := N_of_ascii c in
  (((9 <=? n) && (n <=? 13)) || ((28 <=? n) && (n <=? 32)))%N.

(** [int(c)] for a one-character string; [None] stands for ValueError. *)
Definition int_of_char (c : ascii) : option Z :=
  if isdigit c then Some (Z.of_N (N_of_ascii c) - 48) else None.

Fixpoint lstrip (l : list ascii) : list ascii :=
  match l with
  | c :: r => if isspace c then lstrip r else l
  | [] => []
  end.

Definition strip_chars (l : list ascii) : list ascii :=
  rev (lstrip (rev (lstrip l))).

(** [s.strip()] *)
Definition strip (s : string) : string := of_chars (strip_chars (chars s)).

(** [c in s] for a one-character [c]. *)
Definition contains (c : ascii) (s : string) : bool :=
  existsb (Ascii.eqb c) (chars s).

(** [s.replace(c, '')] *)
Definition remove (c : ascii) (s : string) : string :=
  of_chars (List.filter (fun x => negb (Ascii.eqb x c)) (chars s)).

(** [s.replace(c, d)] for one-character [c] and [d]. *)
Definition replace (c d : ascii) (s : string) : string :=
  of_chars (map (fun x => if Ascii.eqb x c then d else x) (chars s)).

(** [s.isdigit()] on a whole string: non-empty and only digits. *)
Definition all_digits (s : string) : bool :=
  match chars s with
  | [] => false
  | l => forallb isdigit l
  end.

Definition lower (c : ascii) : ascii :=
  let n := N_of_ascii c in
  if ((65 <=? n) && (n <=? 90))%N then ascii_of_N (n + 32) else c.

(** Decimal digits of a natural number, most significant first. *)
Definition digit_char (d : N) : ascii := ascii_of_N (48 + d).

Fixpoint digits_le (fuel : nat) (n : N) : list ascii :=
  match fuel with
  | O => []
  | S f =>
      if (n <? 10)%N then [digit_char n]
      else digit_char (n mod 10) :: digits_le f (n / 10)
  end.

Definition digits_of_N (n : N) : list ascii :=
  rev (digits_le (S (N.to_nat (N.log2 n))) n).

(** [str(n)] for a non-negative integer. *)
Definition of_N (n : N) : string := of_chars (digits_of_N n).

(** [str(z)] for an integer. *)
Definition of_Z (z : Z) : string :=
  if z <? 0 then String "-" (of_N (Z.abs_N z)) else of_N (Z.abs_N z).

(** [int(s)] for a string of digits (the empty string gives 0). *)
Definition N_of_digits (l : list ascii) : N :=
  fold_left (fun acc c => (acc * 10 + (N_of_ascii c - 48))%N) l 0%N.

(** Two lower-case hexadecimal digits, as in the escapes of [repr]. *)
Definition hex_digit (d : N) : ascii :=
  if (d <? 10)%N then ascii_of_N (48 + d) else ascii_of_N (87 + d).
Definition hex2 (c : ascii) : list ascii :=
  let n := N_of_ascii c in [hex_digit (n / 16); hex_digit (n mod 16)].

Definition dquote : ascii := ascii_of_N 34.

(** [repr(s)] of a string: quotes chosen as Python does, control characters
    escaped. *)
Definition repr_char (quote c : ascii) : list ascii :=
  let n := N_of_ascii c in
  if Ascii.eqb c quote || Ascii.eqb c "\" then ["\"%char; c]
  else if (n =? 9)%N then ["\"; "t"]%char
  else if (n =? 10)%N then ["\"; "n"]%char
  else if (n =? 13)%N then ["\"; "r"]%char
  else if ((n <? 32) || (n =? 127))%N then ["\"; "x"]%char ++ hex2 c
  else [c].

Definition repr (s : string) : string :=
  let quote : ascii :=
    if contains "'" s && negb (contains dquote s) then dquote else "'"%char in
  of_chars (quote :: flat_map (repr_char quote) (chars s) ++ [quote]).

End Str.

(** ** Values of [json.loads] *)

Inductive json : Type :=
  | JNull
  | JBool (b : bool)
  | JInt (z : Z)
  | JStr (s : string)
  | JList (l : list json)
  | JObj (kvs : list (string * json)).

(** A Python dict is an association list in insertion order; the first
    binding of a key is the live one. *)
Abbreviation dict := (list (string * json)).

Module Py.

Fixpoint lookup (k : string) (d : dict) : option json :=
  match d with
  | [] => None
  | (k', v) :: r => if String.eqb k k' then Some v else lookup k r
  end.

(** [k in d] *)
Definition mem (k : string) (d : dict) : bool :=
  match lookup k d with Some _ => true | None => false end.

(** [d.get(k)] *)
Definition get (d : dict) (k : string) : json :=
  match lookup k d with Some v => v | None => JNull end.

(** [d.get(k, default)] *)
Definition get_default (d : dict) (k : string) (default : json) : json :=
  match lookup k d with Some v => v | None => default end.

(** The keys of a dict, each once, in insertion order. *)
Fixpoint keys_from (seen : list string) (d : dict) : list string :=
  match d with
  | [] => []
  | (k, _) :: r =>
      if existsb (String.eqb k) seen then keys_from seen r
      else k :: keys_from (k :: seen) r
  end.
Definition keys (d : dict) : list string := keys_from [] d.

(** Truth value of an object: [bool(v)]. *)
Definition truthy (v : json) : bool :=
  match v with
  | JNull => false
  | JBool b => b
  | JInt z => negb (z =? 0)
  | JStr s => negb (String.eqb s "")
  | JList l => match l with [] => false | _ => true end
  | JObj kvs => match kvs with [] => false | _ => true end
  end.

(** [', '.join(l)] *)
Fixpoint join_comma (l : list string) : string :=
  match l with
  | [] => ""
  | [x] => x
  | x :: r => x +:+ ", " +:+ join_comma r
  end.

(** [repr(v)] *)
Fixpoint repr (v : json) : string :=
  match v with
  | JNull => "None"
  | JBool true => "True"
  | JBool false => "False"
  | JInt z => Str.of_Z z
  | JStr s => Str.repr s
  | JList l => "[" +:+ join_comma (map repr l) +:+ "]"
  | JObj kvs =>
      let fix items (seen : list string) (d : dict) : list string :=
        match d with
        | [] => []
        | (k, x) :: r =>
            if existsb (String.eqb k) seen then items seen r
            else (Str.repr k +:+ ": " +:+ repr x) :: items (k :: seen) r
        end in
      "{" +:+ join_comma (items [] kvs) +:+ "}"
  end.

(** [str(v)], which is also how an f-string renders [{v}]. *)
Definition str (v : json) : string :=
  match v with
  | JStr s => s
  | _ => repr v
  end.

(** [''.join(filter(str.isdigit, v))]: the characters of a string that are
    digits; for a list or a dict, the elements (keys) that are digit
    strings.  [str.isdigit] applied to a non-string and iteration over a
    non-iterable raise TypeError.  The digits are the ten ASCII digits:
    this is the filter of the code on ASCII text ([ascii_text]); the other
    digit characters of Unicode, which [str.isdigit] keeps as well, are
    outside the model, and so is the ValueError that [int] raises on some
    of them. *)
Definition only_digits (v : json) : result string :=
  match v with
  | JStr s => Ok (Str.of_chars (List.filter Str.isdigit (Str.chars s)))
  | JList l =>
      fold_right (fun x acc =>
        match x with
        | JStr s => r ← acc; Ok (if Str.all_digits s then s +:+ r else r)
        | _ => Raise TypeError
        end) (Ok "") l
  | JObj kvs =>
      Ok (fold_right (fun k r => if Str.all_digits k then k +:+ r else r)
            "" (keys kvs))
  | JNull | JBool _ | JInt _ => Raise TypeError
  end.

End Py.

(** ** [decimal.Decimal] under the default context *)

Module Dec.

(** A number is [(-1)^sign * int * 10^exp], an infinity, or a NaN (quiet or
    signaling) with its diagnostic payload. *)
Inductive Decimal : Type :=
  | Finite (sign : bool) (int : N) (exp : Z)
  | Infinity (sign : bool)
  | NaN (sign : bool) (signaling : bool) (diag : N).

Definition prec : Z := 28.
Definition Emax : Z := 999999.
Definition Emin : Z := -999999.
Definition Etiny : Z := Emin - prec + 1.
Definition Etop : Z := Emax - prec + 1.

(** [len(self._int)] *)
Definition ndigits (c : N) : Z := Z.of_nat (length (Str.digits_of_N c)).

Definition signed (s : bool) (c : N) : Z :=
  if s then - Z.of_N c else Z.of_N c.

(** *** The constructor [Decimal(str)] *)

Fixpoint span_digits (l : list ascii) : list ascii * list ascii :=
  match l with
  | c :: r =>
      if Str.isdigit c then let (d, t) := span_digits r in (c :: d, t)
      else ([], l)
  | [] => ([], [])
  end.

Definition split_sign (l : list ascii) : bool * list ascii :=
  match l with
  | "-"%char :: r => (true, r)
  | "+"%char :: r => (false, r)
  | _ => (false, l)
  end.

(** The optional exponent part [E[-+]?\d+] up to the end of the text. *)
Definition parse_exp (l : list ascii) : option Z :=
  match l with
  | [] => Some 0
  | c :: r =>
      if Ascii.eqb (Str.lower c) "e" then
        let (neg, ds) := split_sign r in
        match ds with
        | [] => None
        | _ =>
            if forallb Str.isdigit ds
            then Some (signed neg (Str.N_of_digits ds))
            else None
        end
      else None
  end.

(** Digits with an optional point and at least one digit, then the
    exponent: the coefficient is [int(intpart + fracpart)] and the exponent
    is lowered by the length of the fraction. *)
Definition parse_number (l : list ascii) : option (N * Z) :=
  let (ip, r1) := span_digits l in
  let (fp, r2) :=
    match r1 with
    | "."%char :: r => span_digits r
    | _ => ([], r1)
    end in
  match ip ++ fp with
  | [] => None
  | ds =>
      match parse_exp r2 with
      | Some e => Some (Str.N_of_digits ds, e - Z.of_nat (length fp))
      | None => None
      end
  end.

(** [Inf], [Infinity], [NaN<digits>], [sNaN<digits>], in any letter case. *)
Definition parse_special (sign : bool) (l : list ascii) : option Decimal :=
  let w := map Str.lower l in
  if String.eqb (Str.of_chars w) "inf" || String.eqb (Str.of_chars w) "infinity"
  then Some (Infinity sign)
  else
    match w with
    | "n"%char :: "a"%char :: "n"%char :: ds =>
        if forallb Str.isdigit ds
        then Some (NaN sign false (Str.N_of_digits ds)) else None
    | "s"%char :: "n"%char :: "a"%char :: "n"%char :: ds =>
        if forallb Str.isdigit ds
        then Some (NaN sign true (Str.N_of_digits ds)) else None
    | _ => None
    end.

(** [Decimal(s)]: surrounding white space and every underscore are
    dropped; a text that is no numeric string raises InvalidOperation.
    The conversion is exact. *)
Definition of_string (s : string) : result Decimal :=
  let l := List.filter (fun c => negb (Ascii.eqb c "_"))
             (Str.strip_chars (Str.chars s)) in
  let (sign, body) := split_sign l in
  match parse_number body with
  | Some (c, e) => Ok (Finite sign c e)
  | None =>
      match parse_special sign body with
      | Some d => Ok d
      | None => Raise InvalidOperation
      end
  end.

(** *** Rounding to the context *)

(** Drop the last [k > 0] digits of [c], rounding half to even. *)
Definition round_half_even (c : N) (k : Z) : N :=
  let p := (10 ^ Z.to_N k)%N in
  let q := (c / p)%N in
  let r := (c mod p)%N in
  let half := (5 * 10 ^ Z.to_N (k - 1))%N in
  if (half <? r)%N || ((r =? half)%N && N.odd q) then (q + 1)%N else q.

(** [_fix_nan]: a payload longer than the precision keeps its last digits. *)
Definition fix_nan (d : Decimal) : Decimal :=
  match d with
  | NaN s sg p => NaN s sg (p mod 10 ^ Z.to_N prec)
  | _ => d
  end.

(** [_fix]: round to [prec] digits, clamp zeros, raise Overflow above
    Emax, round subnormals at Etiny. *)
Definition fix_ (d : Decimal) : result Decimal :=
  match d with
  | Finite s c e =>
      if (c =? 0)%N then Ok (Finite s 0 (Z.min (Z.max e Etiny) Emax))
      else
        let exp_min := ndigits c + e - prec in
        if Etop <? exp_min then Raise Overflow
        else
          let exp_min := Z.max exp_min Etiny in
          if e <? exp_min then
            let q := round_half_even c (exp_min - e) in
            if prec <? ndigits q then
              if Etop <? exp_min + 1 then Raise Overflow
              else Ok (Finite s (q / 10) (exp_min + 1))
            else Ok (Finite s q exp_min)
          else Ok d
  | Infinity _ => Ok d
  | NaN _ _ _ => Ok (fix_nan d)
  end.

(** *** Arithmetic *)

Definition is_nan (d : Decimal) : bool :=
  match d with NaN _ _ _ => true | _ => false end.

(** [_check_nans]: a signaling NaN raises, a quiet NaN is the answer. *)
Definition check_nans (a b : Decimal) : option (result Decimal) :=
  match a, b with
  | NaN _ true _, _ => Some (Raise InvalidOperation)
  | _, NaN _ true _ => Some (Raise InvalidOperation)
  | NaN _ false _, _ => Some (Ok (fix_nan a))
  | _, NaN _ false _ => Some (Ok (fix_nan b))
  | _, _ => None
  end.

Definition copy_negate (d : Decimal) : Decimal :=
  match d with
  | Finite s c e => Finite (negb s) c e
  | Infinity s => Infinity (negb s)
  | NaN s sg p => NaN (negb s) sg p
  end.

(** [a + b]: the exact sum at the smaller exponent, rounded to the context.
    A zero sum is negative only when both operands are. *)
Definition add (a b : Decimal) : result Decimal :=
  match check_nans a b with
  | Some r => r
  | None =>
      match a, b with
      | Infinity s1, Infinity s2 =>
          if xorb s1 s2 then Raise InvalidOperation else Ok a
      | Infinity _, _ => Ok a
      | _, Infinity _ => Ok b
      | Finite s1 c1 e1, Finite s2 c2 e2 =>
          let e := Z.min e1 e2 in
          let z := signed s1 c1 * 10 ^ (e1 - e) + signed s2 c2 * 10 ^ (e2 - e) in
          if z =? 0 then fix_ (Finite (s1 && s2) 0 e)
          else fix_ (Finite (z <? 0) (Z.abs_N z) e)
      | _, _ => Ok a
      end
  end.

(** [a - b] *)
Definition sub (a b : Decimal) : result Decimal :=
  match check_nans a b with
  | Some r => r
  | None => add a (copy_negate b)
  end.

(** [abs(a)] *)
Definition abs (a : Decimal) : result Decimal :=
  match a with
  | NaN _ true _ => Raise InvalidOperation
  | NaN _ false _ => Ok (fix_nan a)
  | Infinity _ => Ok (Infinity false)
  | Finite _ c e => fix_ (Finite false c e)
  end.

(** [_cmp] on numbers: the order of the values, with [0 == -0]. *)
Definition cmp (a b : Decimal) : comparison :=
  match a, b with
  | Infinity s1, Infinity s2 =>
      match s1, s2 with
      | true, false => Lt
      | false, true => Gt
      | _, _ => Eq
      end
  | Infinity s, _ => if s then Lt else Gt
  | _, Infinity s => if s then Gt else Lt
  | Finite s1 c1 e1, Finite s2 c2 e2 =>
      let e := Z.min e1 e2 in
      (signed s1 c1 * 10 ^ (e1 - e) ?= signed s2 c2 * 10 ^ (e2 - e))
  | _, _ => Eq
  end.

(** [a > b]: an ordering comparison with any NaN raises. *)
Definition gt (a b : Decimal) : result bool :=
  if is_nan a || is_nan b then Raise InvalidOperation
  else Ok (match cmp a b with Gt => true | _ => false end).

(** [a != b]: a signaling NaN raises, a quiet NaN is unequal to all. *)
Definition ne (a b : Decimal) : result bool :=
  match check_nans a b with
  | Some (Raise e) => Raise e
  | Some (Ok _) => Ok true
  | None => Ok (match cmp a b with Eq => false | _ => true end)
  end.

(** *** Text forms *)

Definition sign_str (s : bool) : list ascii := if s then ["-"%char] else [].
Definition zeros (n : Z) : list ascii := replicate (Z.to_nat n) "0"%char.

(** [str(d)]: the scientific string of the arithmetic. *)
Definition to_str (d : Decimal) : string :=
  match d with
  | Infinity s => Str.of_chars (sign_str s) +:+ "Infinity"
  | NaN s sg p =>
      Str.of_chars (sign_str s) +:+ (if sg then "sNaN" else "NaN")
        +:+ (if (p =? 0)%N then "" else Str.of_N p)
  | Finite s c e =>
      let ds := Str.digits_of_N c in
      let n := Z.of_nat (length ds) in
      let leftdigits := e + n in
      let dotplace :=
        if (e <=? 0) && (-6 <? leftdigits) then leftdigits else 1 in
      let intpart :=
        if dotplace <=? 0 then ["0"%char]
        else if n <=? dotplace then ds ++ zeros (dotplace - n)
        else take (Z.to_nat dotplace) ds in
      let fracpart :=
        if dotplace <=? 0 then "."%char :: zeros (- dotplace) ++ ds
        else if n <=? dotplace then []
        else "."%char :: drop (Z.to_nat dotplace) ds in
      let exp :=
        if leftdigits =? dotplace then ""
        else "E" +:+ (if 0 <=? leftdigits - dotplace then "+" else "")
                 +:+ Str.of_Z (leftdigits - dotplace) in
      Str.of_chars (sign_str s ++ intpart ++ fracpart) +:+ exp
  end.

(** [_rescale(exp, ROUND_HALF_EVEN)] of a number. *)
Definition rescale (s : bool) (c : N) (e : Z) (exp : Z) : N :=
  if (c =? 0)%N then 0%N
  else if exp <=? e then (c * 10 ^ Z.to_N (e - exp))%N
  else round_half_even c (exp - e).

(** [format(d, '.2f')]: rounded half-even to two places; no exponent. *)
Definition format_2f (d : Decimal) : string :=
  match d with
  | Infinity s => Str.of_chars (sign_str s) +:+ "Infinity"
  | NaN s sg p =>
      Str.of_chars (sign_str s) +:+ (if sg then "sNaN" else "NaN")
        +:+ (if (p =? 0)%N then "" else Str.of_N p)
  | Finite s c e =>
      let ds := Str.digits_of_N (rescale s c e (-2)) in
      let dotplace := Z.of_nat (length ds) - 2 in
      let intpart :=
        if dotplace <=? 0 then ["0"%char] else take (Z.to_nat dotplace) ds in
      let fracpart :=
        if dotplace <? 0 then zeros (- dotplace) ++ ds
        else drop (Z.to_nat dotplace) ds in
      Str.of_chars (sign_str s ++ intpart ++ "."%char :: fracpart)
  end.

End Dec.

(** ** The auditing logic of [agente_fiscal_langchain.py] *)

(** [_to_decimal]: a false value is [Decimal('0.0')]; otherwise the text of
    the value is stripped, loses its points when it has both a comma and a
    point, has its commas turned into points, and is given to [Decimal]. *)
Definition _to_decimal (value_str : json) : result Dec.Decimal :=
  if negb (Py.truthy value_str) then Dec.of_string "0.0"
  else
    let value_str := Str.strip (Py.str value_str) in
    let value_str :=
      if Str.contains "," value_str && Str.contains "." value_str
      then Str.remove "." value_str else value_str in
    let value_str := Str.replace "," "." value_str in
    Dec.of_string value_str.

(** [sum(int(d) * p for d, p in zip(ds, pesos))]; [None] is the ValueError
    of [int]. *)
Fixpoint weighted_sum (ds : list ascii) (pesos : list Z) : option Z :=
  match ds, pesos with
  | d :: ds', p :: pesos' =>
      v ← Str.int_of_char d; s ← weighted_sum ds' pesos'; Some (v * p + s)
  | _, _ => Some 0
  end.

(** [int(s[i])]; [None] is the IndexError or the ValueError. *)
Definition int_at (s : list ascii) (i : nat) : option Z :=
  s !! i ≫= Str.int_of_char.

Definition validar_cnpj (cnpj : json) : result bool :=
  cnpj ← Py.only_digits cnpj;
  let cnpj := Str.chars cnpj in
  if negb (length cnpj =? 14)%nat
     || (size (list_to_set (C := gset ascii) cnpj) =? 1)%nat
  then Ok false
  else Ok (default false (
    let pesos := [5; 4; 3; 2; 9; 8; 7; 6; 5; 4; 3; 2] in
    soma ← weighted_sum (take 12 cnpj) pesos;
    let resto := soma `mod` 11 in
    let dv1 := if resto <? 2 then 0 else 11 - resto in
    c12 ← int_at cnpj 12;
    if negb (dv1 =? c12) then Some false
    else
      let pesos := [6; 5; 4; 3; 2; 9; 8; 7; 6; 5; 4; 3; 2] in
      soma ← weighted_sum (take 13 cnpj) pesos;
      let resto := soma `mod` 11 in
      let dv2 := if resto <? 2 then 0 else 11 - resto in
      c13 ← int_at cnpj 13;
      if negb (dv2 =? c13) then Some false else Some true)).

(** [sum(int(cpf[i]) * (top - i) for i in range(n))] *)
Definition cpf_sum (cpf : list ascii) (top : Z) (n : nat) : option Z :=
  foldr (fun i acc => v ← int_at cpf i; s ← acc; Some (v * (top - Z.of_nat i) + s))
    (Some 0) (seq 0 n).

Definition validar_cpf (cpf : json) : result bool :=
  cpf ← Py.only_digits cpf;
  let cpf := Str.chars cpf in
  if negb (length cpf =? 11)%nat
     || (size (list_to_set (C := gset ascii) cpf) =? 1)%nat
  then Ok false
  else Ok (default false (
    soma ← cpf_sum cpf 10 9;
    let resto := (soma * 10) `mod` 11 in
    let resto := if resto =? 10 then 0 else resto in
    c9 ← int_at cpf 9;
    if negb (resto =? c9) then Some false
    else
      soma ← cpf_sum cpf 11 10;
      let resto := (soma * 10) `mod` 11 in
      let resto := if resto =? 10 then 0 else resto in
      c10 ← int_at cpf 10;
      if negb (resto =? c10) then Some false else Some true)).

Definition VALID_CFOP_CODES : gset string :=
  list_to_set
    ["6102"; "1101"; "1102"; "1201"; "1202"; "1401"; "1403"; "1904"; "1916";
     "2101"; "2102"; "2201"; "2202"; "2401"; "2403"; "2904"; "2916"; "3101";
     "3102"; "3201"; "3202"; "5101"; "5102"; "5116"; "5117"; "5401"; "5403";
     "5405"; "5656"; "5904"; "5929"; "6101"; "6108"; "6401"; "6403"; "6404";
     "6656"; "6904"; "6929"; "7101"; "7102"; "7127"].

(** [len(''.join(filter(str.isdigit, v)))] *)
Definition digit_count (v : json) : result nat :=
  d ← Py.only_digits v; Ok (String.length d).

Definition _auditar_dados_nfs_ocr (dados : dict)
  : result (list string * list string) :=
  let errors : list string := [] in
  let warnings : list string := [] in
  errors ←
    (if negb (Py.truthy (Py.get dados "emitente_cnpj")) then
       Ok (errors ++ ["CNPJ do emitente não informado."])
     else
       v ← validar_cnpj (Py.get dados "emitente_cnpj");
       if negb v then
         Ok (errors ++ ["CNPJ do emitente '"
                          +:+ Py.str (Py.get dados "emitente_cnpj")
                          +:+ "' é inválido."])
       else Ok errors);
  let dest_doc := Py.get dados "destinatario_cnpj_cpf" in
  '(errors, warnings) ←
    (if negb (Py.truthy dest_doc) then
       Ok (errors,
           warnings ++ ["CPF/CNPJ do destinatário (tomador) não informado."])
     else
       n ← digit_count dest_doc;
       c1 ← (if (11 <? n)%nat then v ← validar_cnpj dest_doc; Ok (negb v)
             else Ok false);
       if c1 : bool then
         Ok (errors ++ ["CNPJ do destinatário '" +:+ Py.str dest_doc
                          +:+ "' é inválido."], warnings)
       else
         n ← digit_count dest_doc;
         c2 ← (if (n <=? 11)%nat then v ← validar_cpf dest_doc; Ok (negb v)
               else Ok false);
         if c2 : bool then
           Ok (errors ++ ["CPF do destinatário '" +:+ Py.str dest_doc
                            +:+ "' é inválido."], warnings)
         else Ok (errors, warnings));
  let errors :=
    if negb (Py.truthy (Py.get dados "numero"))
    then errors ++ ["Número da nota não informado."] else errors in
  let warnings :=
    if negb (Py.truthy (Py.get dados "data_emissao"))
    then warnings ++ ["Data de emissão não informada."] else warnings in
  let errors :=
    if negb (Py.truthy (Py.get dados "valor_total_nota"))
    then errors ++ ["Valor total da nota não informado."] else errors in
  let warnings :=
    if negb (Py.truthy (Py.get dados "discriminacao_servicos"))
    then warnings ++ ["Discriminação dos serviços não informada ou vazia."]
    else warnings in
  Ok (errors, warnings).

(** *** The audit engine *)

(** The result of one audit: [status], [issues] and [warnings] as the
    engine leaves them, and the NCM notes kept for the conclusion. *)
Record AuditResult : Type := {
  status : string;
  issues : list string;
  warnings : list string;
  ncm_info : list string
}.

(** What the tool hands on: the early [ERRO] answer with its message, or the
    audit handed to the conclusion and persistence steps. *)
Inductive outcome : Type :=
  | ERRO (mensagem : string)
  | Audited (r : AuditResult).

(** A row of the TIPI table as [consultar_ncm] returns it. *)
Record ncm_row : Type := {
  ncm_encontrado : json;
  descricao : json;
  aliquota : json
}.

(** The running state of the item loop. *)
Record audit_state : Type := {
  st_issues : list string;
  st_warnings : list string;
  st_ncm_info : list string;
  calculated_sum : Dec.Decimal
}.

Definition add_issue (st : audit_state) (m : string) : audit_state :=
  {| st_issues := st_issues st ++ [m]; st_warnings := st_warnings st;
     st_ncm_info := st_ncm_info st; calculated_sum := calculated_sum st |}.
Definition add_warning (st : audit_state) (m : string) : audit_state :=
  {| st_issues := st_issues st; st_warnings := st_warnings st ++ [m];
     st_ncm_info := st_ncm_info st; calculated_sum := calculated_sum st |}.
Definition add_ncm_info (st : audit_state) (m : string) : audit_state :=
  {| st_issues := st_issues st; st_warnings := st_warnings st;
     st_ncm_info := st_ncm_info st ++ [m]; calculated_sum := calculated_sum st |}.
Definition set_sum (st : audit_state) (d : Dec.Decimal) : audit_state :=
  {| st_issues := st_issues st; st_warnings := st_warnings st;
     st_ncm_info := st_ncm_info st; calculated_sum := d |}.

(** [v.get]: only a dict has the attribute. *)
Definition as_dict (v : json) : result dict :=
  match v with
  | JObj d => Ok d
  | _ => Raise AttributeError
  end.

(** The elements a [for] loop sees. *)
Definition iterate (v : json) : result (list json) :=
  match v with
  | JList l => Ok l
  | JStr s => Ok (map (fun c => JStr (String c "")) (Str.chars s))
  | JObj kvs => Ok (map JStr (Py.keys kvs))
  | JNull | JBool _ | JInt _ => Raise TypeError
  end.

(** [v in VALID_CFOP_CODES]: a list or a dict is unhashable. *)
Definition in_cfop_codes (v : json) : result bool :=
  match v with
  | JStr s => Ok (bool_decide (s ∈ VALID_CFOP_CODES))
  | JList _ | JObj _ => Raise TypeError
  | JNull | JBool _ | JInt _ => Ok false
  end.

(** [v in ['ocr', 'ocr_ia']] *)
Definition is_ocr (v : json) : bool :=
  match v with
  | JStr s => String.eqb s "ocr" || String.eqb s "ocr_ia"
  | _ => false
  end.

Definition is_None (v : json) : bool :=
  match v with JNull => true | _ => false end.

Definition status_of (issues warnings : list string) : string :=
  match issues with
  | _ :: _ => "error"
  | [] => match warnings with _ :: _ => "warning" | [] => "success" end
  end.

(** [abs(calculated_sum - doc_total) > Decimal('0.01')] *)
Definition exceeds_tolerance (calculated_sum doc_total : Dec.Decimal)
  : result bool :=
  diff ← Dec.sub calculated_sum doc_total;
  dist ← Dec.abs diff;
  Dec.gt dist (Dec.Finite false 1 (-2)).

(** [f"A soma dos itens ({calculated_sum:.2f}) difere do valor total da
    nota ({doc_total:.2f})."] *)
Definition reconciliation_error (calculated_sum doc_total : Dec.Decimal)
  : string :=
  "A soma dos itens (" +:+ Dec.format_2f calculated_sum
    +:+ ") difere do valor total da nota ("
    +:+ Dec.format_2f doc_total +:+ ").".

(** [status = 'error' if issues else ('warning' if warnings else 'success')] *)
Definition classify (issues warnings ncm_info : list string) : outcome :=
  let status := status_of issues warnings in
  Audited {| status := status; issues := issues;
             warnings := warnings; ncm_info := ncm_info |}.

Section Engine.

(** [consultar_ncm(ncm, db_file='tipi/tipi.db')]: the row found, if any. *)
Variable consultar_ncm : json → option ncm_row.

(** The tax-rate comparison of one item, inside its [try]. *)
Definition check_ipi (item_prefix : string) (item : dict)
    (resultado_ncm : ncm_row) (st : audit_state) : result audit_state :=
  try_except
    (imposto ← as_dict (Py.get_default item "imposto" (JObj []));
     ipi ← as_dict (Py.get_default imposto "IPI" (JObj []));
     ipitrib ← as_dict (Py.get_default ipi "IPITrib" (JObj []));
     let pIPI_doc_str := Py.get ipitrib "pIPI" in
     if is_None pIPI_doc_str then Ok st
     else
       pIPI_doc ← _to_decimal pIPI_doc_str;
       pIPI_tipi ← _to_decimal (aliquota resultado_ncm);
       differ ← Dec.ne pIPI_doc pIPI_tipi;
       if differ : bool then
         Ok (add_warning st
               (item_prefix +:+ "Alíquota de IPI (" +:+ Dec.to_str pIPI_doc
                  +:+ "%) diverge da Tabela TIPI (" +:+ Dec.to_str pIPI_tipi
                  +:+ "%)."))
       else Ok st)
    [InvalidOperation; TypeError]
    (Ok (add_warning st
           (item_prefix +:+ "Não foi possível validar a alíquota de IPI. Valor inválido no documento."))).

(** [f"Item {i} ({item.get('codigo', 'S/C')}) - "] *)
Definition item_prefix (i : nat) (item : dict) : string :=
  "Item " +:+ Str.of_N (N.of_nat i) +:+ " ("
    +:+ Py.str (Py.get_default item "codigo" (JStr "S/C")) +:+ ") - ".

Definition ncm_missing (i : nat) (item : dict) : string :=
  item_prefix i item +:+ "NCM não informado.".

Definition ncm_unknown (i : nat) (item : dict) : string :=
  item_prefix i item +:+ "NCM '" +:+ Py.str (Py.get item "ncm")
    +:+ "' é inválido ou não foi encontrado na Tabela TIPI.".

(** The NCM rule of one item: missing, unknown, or found and compared. *)
Definition audit_ncm (i : nat) (item : dict) (st : audit_state)
  : result audit_state :=
  let ncm := Py.get item "ncm" in
  if negb (Py.truthy ncm) then Ok (add_issue st (ncm_missing i item))
  else
    match consultar_ncm ncm with
    | None => Ok (add_issue st (ncm_unknown i item))
    | Some resultado_ncm =>
        let st :=
          add_ncm_info st
            ("Item " +:+ Py.str (Py.get_default item "codigo" (JStr "S/C"))
               +:+ " (NCM " +:+ Py.str (ncm_encontrado resultado_ncm)
               +:+ "): Descrição: " +:+ Py.str (descricao resultado_ncm)
               +:+ ", Alíquota IPI: " +:+ Py.str (aliquota resultado_ncm)
               +:+ "%") in
        check_ipi (item_prefix i item) item resultado_ncm st
    end.

(** The CFOP rule of one item. *)
Definition audit_cfop (i : nat) (item : dict) (st : audit_state)
  : result audit_state :=
  bad_cfop ←
    (if negb (Py.truthy (Py.get item "cfop")) then Ok true
     else b ← in_cfop_codes (Py.get item "cfop"); Ok (negb b));
  if bad_cfop : bool then
    Ok (add_warning st
          (item_prefix i item +:+ "CFOP '"
             +:+ Py.str (Py.get_default item "cfop" (JStr ""))
             +:+ "' não consta na lista de códigos válidos."))
  else Ok st.

(** The line total of one item, added to the running sum inside its [try]. *)
Definition audit_valor_total (i : nat) (item : dict) (st : audit_state)
  : result audit_state :=
  try_except
    (v ← _to_decimal (Py.get_default item "valor_total" (JStr "0"));
     s ← Dec.add (calculated_sum st) v;
     Ok (set_sum st s))
    [InvalidOperation; TypeError]
    (Ok (add_issue st (item_prefix i item +:+ "Contém valor total inválido."))).

(** The body of the item loop for the [i]-th item. *)
Definition audit_item (i : nat) (item : json) (st : audit_state)
  : result audit_state :=
  item ← as_dict item;
  st ← audit_ncm i item st;
  st ← audit_cfop i item st;
  audit_valor_total i item st.

(** [for i, item in enumerate(items, i): ...] *)
Fixpoint audit_items (i : nat) (items : list json) (st : audit_state)
  : result audit_state :=
  match items with
  | [] => Ok st
  | item :: rest => st' ← audit_item i item st; audit_items (S i) rest st'
  end.

(** The state before the item loop: number and issuer checked, the empty
    list of items noted. *)
Definition audit_header (dados : dict) : result audit_state :=
  let st := {| st_issues := []; st_warnings := []; st_ncm_info := [];
               calculated_sum := Dec.Finite false 0 (-2) |} in
  let st :=
    if negb (Py.truthy (Py.get dados "numero"))
    then add_issue st "Número do documento não informado." else st in
  bad_cnpj ←
    (if negb (Py.truthy (Py.get dados "emitente_cnpj")) then Ok true
     else v ← validar_cnpj (Py.get_default dados "emitente_cnpj" (JStr ""));
          Ok (negb v));
  let st :=
    if bad_cnpj : bool then
      add_issue st
        ("CNPJ do emitente '"
           +:+ Py.str (Py.get_default dados "emitente_cnpj" (JStr ""))
           +:+ "' é inválido ou não informado.")
    else st in
  let items := Py.get_default dados "itens" (JList []) in
  Ok (if negb (Py.truthy items)
      then add_warning st "O documento não contém itens." else st).

(** The [else] branch: the rules of the structured (XML) documents. *)
Definition auditar_estruturado (dados : dict)
  : result (list string * list string * list string) :=
  st ← audit_header dados;
  items ← iterate (Py.get_default dados "itens" (JList []));
  st ← audit_items 1 items st;
  doc_total ← _to_decimal (Py.get_default dados "valor_total_nota" (JStr "0"));
  exceeds ← exceeds_tolerance (calculated_sum st) doc_total;
  let st :=
    if exceeds : bool then
      add_issue st (reconciliation_error (calculated_sum st) doc_total)
    else st in
  Ok (st_issues st, st_warnings st, st_ncm_info st).

(** [auditar_e_salvar_dados_fiscais], from the parsed input to the status
    (the conclusion text and the write to the document store follow it). *)
Definition auditar_e_salvar_dados_fiscais (dados : dict) : result outcome :=
  if Py.mem "erro" dados then
    Ok (ERRO ("A extração de dados falhou. Causa raiz: "
                +:+ Py.str (Py.get dados "erro")))
  else
    '(issues, warnings, ncm_info) ←
      (if is_ocr (Py.get dados "formato") then
         '(issues, warnings) ← _auditar_dados_nfs_ocr dados;
         Ok (issues, warnings, [])
       else auditar_estruturado dados);
    Ok (classify issues warnings ncm_info).


End Engine.

(** ** The vocabulary of the specification *)

(** The digits left once every other character is stripped. *)
Definition digits_of (s : string) : list ascii :=
  List.filter Str.isdigit (Str.chars s).

Definition digit_value (c : ascii) : Z := Z.of_N (N_of_ascii c) - 48.

(** The weighted sum of the digits [ds] under the weights [pesos]. *)
Fixpoint dot (ds : list ascii) (pesos : list Z) : Z :=
  match ds, pesos with
  | d :: ds', p :: pesos' => digit_value d * p + dot ds' pesos'
  | _, _ => 0
  end.

(** The mod-11 check digit: 0 if the remainder is below 2, else 11 minus
    the remainder. *)
Definition mod11_check_digit (ds : list ascii) (pesos : list Z) : Z :=
  let resto := dot ds pesos `mod` 11 in
  if resto <? 2 then 0 else 11 - resto.

Definition pesos_dv1 : list Z := [5; 4; 3; 2; 9; 8; 7; 6; 5; 4; 3; 2].
Definition pesos_dv2 : list Z := [6; 5; 4; 3; 2; 9; 8; 7; 6; 5; 4; 3; 2].

Definition all_identical (l : list ascii) : Prop :=
  ∀ x y, x ∈ l → y ∈ l → x = y.

(** The separator policy on a text: with both a comma and a point, the
    points are thousands separators and go away; the comma is the decimal
    point. *)
Definition normalize_format (s : string) : string :=
  Str.replace "," "."
    (if Str.contains "," s && Str.contains "." s then Str.remove "." s else s).

(** The two rewritings of [_to_decimal], on lists of characters. *)
Definition drop_points (l : list ascii) : list ascii :=
  List.filter (λ x, negb (Ascii.eqb x ".")) l.
Definition comma_to_point (l : list ascii) : list ascii :=
  map (λ x, if Ascii.eqb x "," then "."%char else x) l.
Definition nf_chars (both : bool) (l : list ascii) : list ascii :=
  comma_to_point (if both then drop_points l else l).
Definition has (c : ascii) (l : list ascii) : bool := existsb (Ascii.eqb c) l.

(** The line total of an item as the loop reads it. *)
Definition line_total (item : json) : result Dec.Decimal :=
  item ← as_dict item;
  _to_decimal (Py.get_default item "valor_total" (JStr "0")).

(** The running sum of the specification: a line total that parses and
    adds is accumulated, any other leaves the sum as it is. *)
Definition accumulate (acc : Dec.Decimal) (item : json) : Dec.Decimal :=
  match v ← line_total item; Dec.add acc v with
  | Ok s => s
  | Raise _ => acc
  end.

Definition soma_itens (items : list json) : Dec.Decimal :=
  fold_left accumulate items (Dec.Finite false 0 (-2)).

(** Only the reconciliation message starts with the letter A. *)
Definition starts_with_A (m : string) : bool :=
  match m with
  | String "A" _ => true
  | _ => false
  end.

(** What a step of the loop may do to the state: the issues only grow, and
    by messages that do not start with A. *)
Definition grows (st st' : audit_state) : Prop :=
  ∃ extra, st_issues st' = st_issues st ++ extra ∧
           Forall (λ m, starts_with_A m = false) extra.

(** The value of a number in units of [10^e], for [e] at most its
    exponent. *)
Definition scaled (d : Dec.Decimal) (e : Z) : Z :=
  match d with
  | Dec.Finite s c x => Dec.signed s c * 10 ^ (x - e)
  | _ => 0
  end.

(** The smaller exponent of two numbers. *)
Definition common_exp (a b : Dec.Decimal) : Z :=
  match a, b with
  | Dec.Finite _ _ e1, Dec.Finite _ _ e2 => Z.min e1 e2
  | _, _ => 0
  end.

(** The comparison of the specification, in exact arithmetic: the two
    values differ by more than 0.01. *)
Definition differ_by_more_than_a_cent (a b : Dec.Decimal) : bool :=
  let e := Z.min (common_exp a b) (-2) in
  10 ^ (-2 - e) <? Z.abs (scaled a e - scaled b e).

(** Two numbers whose exact difference the context can hold: written at
    their smaller exponent, which is at most -2 and not below Etiny, it has
    at most 28 digits. *)
Definition within_precision (a b : Dec.Decimal) : Prop :=
  match a, b with
  | Dec.Finite _ _ e1, Dec.Finite _ _ e2 =>
      let e := Z.min e1 e2 in
      Dec.Etiny ≤ e ≤ -2 ∧ Z.abs (scaled a e - scaled b e) < 10 ^ 28
  | _, _ => False
  end.


(** A transaction code that is missing or is a text outside the list. *)
Definition bad_cfop (v : json) : Prop :=
  Py.truthy v = false ∨ ∃ c, v = JStr c ∧ c ∉ VALID_CFOP_CODES.




(** ** Sample documents *)

Module Samples.

(** A two-row excerpt standing for the TIPI table. *)
Definition tipi (ncm : json) : option ncm_row :=
  match ncm with
  | JStr "84713012" =>
      Some {| ncm_encontrado := JStr "84713012";
              descricao := JStr "Maquinas portateis";
              aliquota := JStr "0" |}
  | JStr "22021000" =>
      Some {| ncm_encontrado := JStr "22021000";
              descricao := JStr "Aguas minerais";
              aliquota := JStr "NT" |}
  | _ => None
  end.

Definition item (ncm valor : string) : json :=
  JObj [("codigo", JStr "A1"); ("ncm", JStr ncm); ("cfop", JStr "5102");
        ("valor_total", JStr valor); ("imposto", JObj [])].

(** A structured note with two items and the given declared total. *)
Definition nota_xml (ncm total : string) : dict :=
  [("tipo_documento", JStr "NFE"); ("numero", JStr "1001");
   ("emitente_cnpj", JStr "11222333000181");
   ("valor_total_nota", JStr total);
   ("itens", JList [item "84713012" "60.00"; item ncm "40,00"])].

(** A note whose second item has a line total that is no number. *)
Definition nota_xml_item_invalido : dict :=
  [("numero", JStr "1001"); ("emitente_cnpj", JStr "11222333000181");
   ("valor_total_nota", JStr "60.00");
   ("itens", JList [item "84713012" "60.00"; item "84713012" "abc"])].

(** An OCR note with every checked field but the issue date. *)
Definition nota_ocr_sem_data : dict :=
  [("emitente_cnpj", JStr "11.222.333/0001-81");
   ("destinatario_cnpj_cpf", JStr "529.982.247-25");
   ("numero", JStr "77"); ("valor_total_nota", JStr "R$ 150,00");
   ("discriminacao_servicos", JStr "Consultoria");
   ("formato", JStr "ocr_ia"); ("tipo_documento", JStr "NFS-e")].

(** What [extrair_dados_xml] returns when it fails. *)
Definition falha_extracao : dict :=
  [("erro", JStr "Falha ao processar XML: arquivo vazio")].

End Samples.

(** ** The vocabulary of the further properties *)

(** The weighted sum of the CPF: the weights fall by one from [top]. *)
Fixpoint cpf_dot (ds : list ascii) (top : Z) : Z :=
  match ds with
  | [] => 0
  | d :: ds' => digit_value d * top + cpf_dot ds' (top - 1)
  end.

(** The check digit of the CPF: ten times the sum modulo 11, with 10 read
    as 0. *)
Definition cpf_check_digit (ds : list ascii) (top : Z) : Z :=
  let resto := (cpf_dot ds top * 10) `mod` 11 in
  if resto =? 10 then 0 else resto.

(** A field that the extraction left as text, or left out. *)
Definition is_text (v : json) : Prop :=
  match v with
  | JStr _ | JNull => True
  | _ => False
  end.

(** The recipient rule of the OCR path: a CNPJ when more than eleven digits
    are written, a CPF otherwise. *)
Definition recipient_valid (dest : string) : bool :=
  if (11 <? length (digits_of dest))%nat
  then match validar_cnpj (JStr dest) with Ok true => true | _ => false end
  else match validar_cpf (JStr dest) with Ok true => true | _ => false end.

(** [s.isascii()]: every character is below 128.  On such a text the
    digits [str.isdigit] keeps are exactly the ten ASCII digits. *)
Definition ascii_text (s : string) : bool :=
  forallb (λ c, (N_of_ascii c <? 128)%N) (Str.chars s).

(** The rate an item declares: [item.get('imposto', {}).get('IPI', {})
    .get('IPITrib', {}).get('pIPI')]. *)
Definition pIPI_of (item : dict) : result json :=
  imposto ← as_dict (Py.get_default item "imposto" (JObj []));
  ipi ← as_dict (Py.get_default imposto "IPI" (JObj []));
  ipitrib ← as_dict (Py.get_default ipi "IPITrib" (JObj []));
  Ok (Py.get ipitrib "pIPI").

(** An item that no rule objects to: a dict whose NCM is found by the
    lookup, whose declared rate, if any, equals the rate of the table, and
    whose CFOP is one of the valid codes. *)
Definition item_clean (lookup : json → option ncm_row) (item : json) : Prop :=
  ∃ it row c,
    item = JObj it ∧
    Py.truthy (Py.get it "ncm") = true ∧
    lookup (Py.get it "ncm") = Some row ∧
    (pIPI_of it = Ok JNull ∨
     ∃ v a b, pIPI_of it = Ok v ∧ is_None v = false ∧
              _to_decimal v = Ok a ∧ _to_decimal (aliquota row) = Ok b ∧
              Dec.ne a b = Ok false) ∧
    Py.get it "cfop" = JStr c ∧ c ∈ VALID_CFOP_CODES.

(** The sum of the line totals when each of them parses and adds. *)
Fixpoint sum_lines (items : list json) (acc : Dec.Decimal) : result Dec.Decimal :=
  match items with
  | [] => Ok acc
  | item :: rest =>
      v ← line_total item; s ← Dec.add acc v; sum_lines rest s
  end.

(** * Properties *)

(** ** The result monad *)

Lemma bind_Ok_inv {A B} (m : result A) (f : A → result B) (b : B) :
  (m ≫= f) = Ok b → ∃ a, m = Ok a ∧ f a = Ok b.
Proof. destruct m as [a|e]; simpl; [eauto | discriminate]. Qed.

Lemma try_except_Ok_inv {A} (m h : result A) es (a : A) :
  try_except m es h = Ok a →
  m = Ok a ∨ (∃ e, m = Raise e ∧ existsb (exn_eqb e) es = true ∧ h = Ok a).
Proof.
  destruct m as [x|e]; simpl; [intros [= ->]; by left |].
  destruct (existsb (exn_eqb e) es) eqn:He; [| discriminate].
  intros Hh. right. by exists e.
Qed.

(** ** The status is a function of the two lists *)

Lemma status_of_error i w : status_of i w = "error" ↔ i ≠ [].
Proof. destruct i, w; simpl; split; (congruence || done). Qed.

Lemma status_of_warning i w : status_of i w = "warning" ↔ i = [] ∧ w ≠ [].
Proof.
  destruct i, w; simpl; split; try done; try (intros [? ?]; done);
    try (split; done).
Qed.

Lemma status_of_success i w : status_of i w = "success" ↔ i = [] ∧ w = [].
Proof.
  destruct i, w; simpl; split; try done; try (intros [? ?]; done).
Qed.

(** Every audit the engine hands on was classified by [status_of]. *)
Lemma audited_status lookup dados r :
  auditar_e_salvar_dados_fiscais lookup dados = Ok (Audited r) →
  status r = status_of (issues r) (warnings r).
Proof.
  unfold auditar_e_salvar_dados_fiscais.
  destruct (Py.mem "erro" dados); [discriminate |].
  intros H. apply bind_Ok_inv in H as ([[i w] n] & _ & H).
  unfold classify in H. by injection H as <-.
Qed.

(** C2. For every record the engine audits to completion, the status is
    'error' exactly when the list of errors is non-empty, 'warning' exactly
    when there is no error but some warning, and 'success' exactly when both
    lists are empty. *)
Theorem C2_status_iff_lists lookup dados r :
  auditar_e_salvar_dados_fiscais lookup dados = Ok (Audited r) →
  (status r = "error" ↔ issues r ≠ []) ∧
  (status r = "warning" ↔ issues r = [] ∧ warnings r ≠ []) ∧
  (status r = "success" ↔ issues r = [] ∧ warnings r = []).
Proof.
  intros H. rewrite (audited_status _ _ _ H).
  auto using status_of_error, status_of_warning, status_of_success.
Qed.

Lemma C2_status_iff_lists_witness :
  let r := {| status := "warning"; issues := [];
              warnings := ["Data de emissão não informada."];
              ncm_info := [] |} in
  auditar_e_salvar_dados_fiscais Samples.tipi Samples.nota_ocr_sem_data
    = Ok (Audited r) ∧
  ((status r = "error" ↔ issues r ≠ []) ∧
   (status r = "warning" ↔ issues r = [] ∧ warnings r ≠ []) ∧
   (status r = "success" ↔ issues r = [] ∧ warnings r = [])).
Proof.
  intros r. split; [vm_compute; reflexivity |].
  apply (C2_status_iff_lists Samples.tipi Samples.nota_ocr_sem_data r).
  vm_compute; reflexivity.
Defined.

(** ** The extraction-failure gate *)

(** C7. A record that carries the extraction-failure signal (the key
    'erro') is answered at once with the ERRO status wrapping the reason;
    the answer depends on nothing but the reason, so neither the lookup nor
    any other field of the record (identity, codes, totals, format) is
    consulted. *)
Theorem C7_extraction_failure_short_circuits lookup dados reason :
  Py.lookup "erro" dados = Some reason →
  auditar_e_salvar_dados_fiscais lookup dados
    = Ok (ERRO ("A extração de dados falhou. Causa raiz: " +:+ Py.str reason)) ∧
  (∀ lookup' dados',
     Py.lookup "erro" dados' = Some reason →
     auditar_e_salvar_dados_fiscais lookup' dados'
       = auditar_e_salvar_dados_fiscais lookup dados).
Proof.
  assert (Hgate : ∀ l d, Py.lookup "erro" d = Some reason →
    auditar_e_salvar_dados_fiscais l d
      = Ok (ERRO ("A extração de dados falhou. Causa raiz: " +:+ Py.str reason))).
  { intros l d Hd. unfold auditar_e_salvar_dados_fiscais, Py.mem, Py.get.
    by rewrite Hd. }
  intros H. split; [by apply Hgate |].
  intros l' d' H'. by rewrite !Hgate.
Qed.

Lemma C7_extraction_failure_short_circuits_witness :
  Py.lookup "erro" Samples.falha_extracao
    = Some (JStr "Falha ao processar XML: arquivo vazio") ∧
  auditar_e_salvar_dados_fiscais Samples.tipi Samples.falha_extracao
    = Ok (ERRO "A extração de dados falhou. Causa raiz: Falha ao processar XML: arquivo vazio").
Proof.
  split; [reflexivity |].
  exact (proj1 (C7_extraction_failure_short_circuits Samples.tipi
                  Samples.falha_extracao
                  (JStr "Falha ao processar XML: arquivo vazio") eq_refl)).
Defined.



(** ** The identity validators *)

Lemma chars_of_chars l : Str.chars (Str.of_chars l) = l.
Proof. apply list_ascii_of_string_of_list_ascii. Qed.

Lemma digits_of_isdigit s : Forall (λ c, Str.isdigit c = true) (digits_of s).
Proof.
  unfold digits_of. induction (Str.chars s) as [|c l IH]; simpl; [constructor |].
  destruct (Str.isdigit c) eqn:Hc; [by constructor | done].
Qed.

Lemma int_of_char_digit c :
  Str.isdigit c = true → Str.int_of_char c = Some (digit_value c).
Proof. unfold Str.int_of_char. by intros ->. Qed.

Lemma digit_value_inj c c' :
  Str.isdigit c = true → Str.isdigit c' = true →
  digit_value c = digit_value c' → c = c'.
Proof.
  intros _ _ H. unfold digit_value in H.
  rewrite <- (ascii_N_embedding c), <- (ascii_N_embedding c').
  f_equal. lia.
Qed.

Lemma weighted_sum_digits ds pesos :
  Forall (λ c, Str.isdigit c = true) ds →
  weighted_sum ds pesos = Some (dot ds pesos).
Proof.
  intros H. revert pesos.
  induction H as [|d ds Hd _ IH]; intros [|p pesos]; simpl; try reflexivity.
  by rewrite (int_of_char_digit _ Hd), IH.
Qed.

Lemma int_at_digit l i c :
  l !! i = Some c → Str.isdigit c = true → int_at l i = Some (digit_value c).
Proof.
  intros Hl Hc. unfold int_at. rewrite Hl. simpl.
  by apply int_of_char_digit.
Qed.

(** [len(set(l)) == 1] says that [l] is not empty and has one value. *)
Lemma set_size_one (l : list ascii) :
  size (list_to_set (C := gset ascii) l) = 1%nat ↔ l ≠ [] ∧ all_identical l.
Proof.
  split.
  - intros H. apply size_1_elem_of in H as [c Hc].
    assert (Hin : ∀ x, x ∈ l → x = c).
    { intros x Hx. apply (elem_of_singleton (C := gset ascii)).
      apply Hc. by apply elem_of_list_to_set. }
    split.
    + intros ->. apply (not_elem_of_empty (C := gset ascii) c).
      apply Hc. by apply elem_of_singleton.
    + intros x y Hx Hy. by rewrite (Hin x Hx), (Hin y Hy).
  - intros [Hne Hall]. destruct l as [|c l]; [done |].
    assert (list_to_set (C := gset ascii) (c :: l) = {[c]}) as ->.
    { apply set_eq. intros x. rewrite elem_of_list_to_set, elem_of_singleton.
      split; [| intros ->; apply list_elem_of_here].
      intros Hx. apply Hall; [done | apply list_elem_of_here]. }
    apply size_singleton.
Qed.

Lemma validar_cnpj_str s :
  validar_cnpj (JStr s) =
    let cnpj := digits_of s in
    if negb (length cnpj =? 14)%nat
       || (size (list_to_set (C := gset ascii) cnpj) =? 1)%nat
    then Ok false
    else Ok (default false (
      soma ← weighted_sum (take 12 cnpj) pesos_dv1;
      let resto := soma `mod` 11 in
      let dv1 := if resto <? 2 then 0 else 11 - resto in
      c12 ← int_at cnpj 12;
      if negb (dv1 =? c12) then Some false
      else
        soma ← weighted_sum (take 13 cnpj) pesos_dv2;
        let resto := soma `mod` 11 in
        let dv2 := if resto <? 2 then 0 else 11 - resto in
        c13 ← int_at cnpj 13;
        if negb (dv2 =? c13) then Some false else Some true)).
Proof.
  unfold validar_cnpj, Py.only_digits. simpl.
  rewrite chars_of_chars. reflexivity.
Qed.

Lemma validar_cpf_str_identical s :
  all_identical (digits_of s) → validar_cpf (JStr s) = Ok false.
Proof.
  intros Hall. unfold validar_cpf, Py.only_digits. simpl.
  rewrite chars_of_chars. fold (digits_of s).
  destruct (length (digits_of s) =? 11)%nat eqn:Hlen; [| reflexivity].
  apply Nat.eqb_eq in Hlen. simpl.
  assert (size (list_to_set (C := gset ascii) (digits_of s)) = 1%nat) as ->.
  { apply set_size_one. split; [| done]. intros E. by rewrite E in Hlen. }
  reflexivity.
Qed.

Lemma all_identical_replicate n c : all_identical (replicate n c).
Proof.
  intros x y Hx Hy.
  apply elem_of_replicate in Hx as [-> _].
  by apply elem_of_replicate in Hy as [-> _].
Qed.

(** C9. A string whose stripped digits are all the same character is
    rejected by the organisation-ID and by the individual-ID validator,
    whatever its check digits are. *)
Theorem C9_identical_digits_rejected s :
  all_identical (digits_of s) →
  validar_cnpj (JStr s) = Ok false ∧ validar_cpf (JStr s) = Ok false.
Proof.
  intros Hall. split; [| by apply validar_cpf_str_identical].
  rewrite validar_cnpj_str. cbv zeta.
  destruct (length (digits_of s) =? 14)%nat eqn:Hlen; [| reflexivity].
  apply Nat.eqb_eq in Hlen. simpl negb. rewrite orb_false_l.
  assert (size (list_to_set (C := gset ascii) (digits_of s)) = 1%nat) as ->.
  { apply set_size_one. split; [| done]. intros E. by rewrite E in Hlen. }
  reflexivity.
Qed.

Lemma C9_identical_digits_rejected_witness :
  validar_cnpj (JStr "00.000.000/0000-00") = Ok false ∧
  validar_cpf (JStr "000.000.000-00") = Ok false.
Proof.
  split.
  - apply (C9_identical_digits_rejected "00.000.000/0000-00").
    apply (all_identical_replicate 14 "0").
  - apply (C9_identical_digits_rejected "000.000.000-00").
    apply (all_identical_replicate 11 "0").
Defined.

Lemma not_identical_size (l : list ascii) :
  ¬ all_identical l → (size (list_to_set (C := gset ascii) l) =? 1)%nat = false.
Proof.
  intros H. apply Nat.eqb_neq. intros Hs.
  apply set_size_one in Hs as [_ Hs]. done.
Qed.

(** The validator on fourteen digits that are not all the same: the two
    check-digit tests decide. *)
Lemma validar_cnpj_checks s c12 c13 :
  length (digits_of s) = 14%nat →
  ¬ all_identical (digits_of s) →
  digits_of s !! 12%nat = Some c12 →
  digits_of s !! 13%nat = Some c13 →
  validar_cnpj (JStr s) =
    Ok (bool_decide (digit_value c12 = mod11_check_digit (take 12 (digits_of s)) pesos_dv1)
        && bool_decide (digit_value c13 = mod11_check_digit (take 13 (digits_of s)) pesos_dv2)).
Proof.
  intros Hlen Hnot H12 H13. rewrite validar_cnpj_str. cbv zeta.
  rewrite Hlen, (not_identical_size _ Hnot). simpl negb. simpl orb. cbv iota.
  pose proof (digits_of_isdigit s) as Hd.
  assert (Hc12 : Str.isdigit c12 = true).
  { eapply Forall_lookup_1 in Hd; [exact Hd | exact H12]. }
  assert (Hc13 : Str.isdigit c13 = true).
  { eapply Forall_lookup_1 in Hd; [exact Hd | exact H13]. }
  rewrite !weighted_sum_digits by (by apply Forall_take).
  rewrite (int_at_digit _ _ _ H12 Hc12), (int_at_digit _ _ _ H13 Hc13).
  simpl. unfold mod11_check_digit.
  set (dv1 := if dot (take 12 (digits_of s)) pesos_dv1 `mod` 11 <? 2 then 0
              else 11 - dot (take 12 (digits_of s)) pesos_dv1 `mod` 11).
  set (dv2 := if dot (take 13 (digits_of s)) pesos_dv2 `mod` 11 <? 2 then 0
              else 11 - dot (take 13 (digits_of s)) pesos_dv2 `mod` 11).
  destruct (Z.eqb_spec dv1 (digit_value c12)) as [E1|E1]; simpl.
  - rewrite bool_decide_eq_true_2 by done.
    destruct (Z.eqb_spec dv2 (digit_value c13)) as [E2|E2]; simpl.
    + by rewrite bool_decide_eq_true_2.
    + by rewrite bool_decide_eq_false_2.
  - by rewrite bool_decide_eq_false_2.
Qed.

(** Replacing one digit by another one keeps fourteen digits but may make
    them all the same; the validator answers false in both cases when a
    check-digit test fails. *)
Lemma validar_cnpj_failed_check s c12 c13 :
  length (digits_of s) = 14%nat →
  digits_of s !! 12%nat = Some c12 →
  digits_of s !! 13%nat = Some c13 →
  digit_value c12 ≠ mod11_check_digit (take 12 (digits_of s)) pesos_dv1 ∨
  digit_value c13 ≠ mod11_check_digit (take 13 (digits_of s)) pesos_dv2 →
  validar_cnpj (JStr s) = Ok false.
Proof.
  intros Hlen H12 H13 Hbad.
  destruct (decide (size (list_to_set (C := gset ascii) (digits_of s)) = 1%nat))
    as [Hsz|Hsz].
  - rewrite validar_cnpj_str. cbv zeta. rewrite Hlen, Hsz. reflexivity.
  - rewrite (validar_cnpj_checks s c12 c13); try done.
    + f_equal. destruct Hbad as [Hb|Hb].
      * by rewrite (bool_decide_eq_false_2 _ Hb).
      * rewrite (bool_decide_eq_false_2 _ Hb). apply andb_false_r.
    + intros Hall. apply Hsz, set_size_one. split; [| done].
      intros E. by rewrite E in Hlen.
Qed.

(** C4. A string that strips to fourteen digits, not all identical, whose
    13th digit is the mod-11 check digit of the first twelve under
    [5,4,3,2,9,8,7,6,5,4,3,2] and whose 14th digit is the check digit of the
    first thirteen under [6,5,4,3,2,9,8,7,6,5,4,3,2], is a valid CNPJ; any
    string whose digits are the same but for another digit in 13th or in
    14th place is not. *)
Theorem C4_cnpj_check_digits s c12 c13 :
  length (digits_of s) = 14%nat →
  ¬ all_identical (digits_of s) →
  digits_of s !! 12%nat = Some c12 →
  digits_of s !! 13%nat = Some c13 →
  digit_value c12 = mod11_check_digit (take 12 (digits_of s)) pesos_dv1 →
  digit_value c13 = mod11_check_digit (take 13 (digits_of s)) pesos_dv2 →
  validar_cnpj (JStr s) = Ok true ∧
  (∀ s' c', Str.isdigit c' = true → c' ≠ c12 →
     digits_of s' = <[12%nat := c']> (digits_of s) →
     validar_cnpj (JStr s') = Ok false) ∧
  (∀ s' c', Str.isdigit c' = true → c' ≠ c13 →
     digits_of s' = <[13%nat := c']> (digits_of s) →
     validar_cnpj (JStr s') = Ok false).
Proof.
  intros Hlen Hnot H12 H13 Hdv1 Hdv2.
  pose proof (digits_of_isdigit s) as Hd.
  assert (Hc12 : Str.isdigit c12 = true).
  { eapply Forall_lookup_1 in Hd; [exact Hd | exact H12]. }
  assert (Hc13 : Str.isdigit c13 = true).
  { eapply Forall_lookup_1 in Hd; [exact Hd | exact H13]. }
  split; [| split].
  - rewrite (validar_cnpj_checks s c12 c13) by done.
    by rewrite !bool_decide_eq_true_2.
  - intros s' c' Hc' Hne Hs'.
    apply (validar_cnpj_failed_check s' c' c13).
    + by rewrite Hs', length_insert.
    + rewrite Hs'. apply list_lookup_insert_eq. lia.
    + rewrite Hs', list_lookup_insert_ne by lia. done.
    + left. rewrite Hs', take_insert_ge by lia. rewrite <- Hdv1.
      intros E. by apply Hne, digit_value_inj.
  - intros s' c' Hc' Hne Hs'.
    apply (validar_cnpj_failed_check s' c12 c').
    + by rewrite Hs', length_insert.
    + rewrite Hs', list_lookup_insert_ne by lia. done.
    + rewrite Hs'. apply list_lookup_insert_eq. lia.
    + right. rewrite Hs', take_insert_ge by lia. rewrite <- Hdv2.
      intros E. by apply Hne, digit_value_inj.
Qed.

Lemma C4_cnpj_check_digits_witness :
  validar_cnpj (JStr "11.222.333/0001-81") = Ok true ∧
  validar_cnpj (JStr "11.222.333/0001-91") = Ok false ∧
  validar_cnpj (JStr "11.222.333/0001-87") = Ok false.
Proof.
  destruct (C4_cnpj_check_digits "11.222.333/0001-81" "8" "1")
    as (Hvalid & H13 & H14); try (vm_compute; reflexivity).
  - intros Hall.
    assert ("1"%char = "2"%char) as E; [| discriminate E].
    apply Hall; vm_compute; repeat constructor.
  - split; [exact Hvalid |]. split.
    + apply (H13 "11.222.333/0001-91" "9"%char); [reflexivity | discriminate |].
      vm_compute. reflexivity.
    + apply (H14 "11.222.333/0001-87" "7"%char); [reflexivity | discriminate |].
      vm_compute. reflexivity.
Defined.

(** ** The OCR path *)

Lemma length_of_chars l : String.length (Str.of_chars l) = length l.
Proof. induction l as [|c l IH]; simpl; [done | by rewrite IH]. Qed.

Lemma digit_count_str s : digit_count (JStr s) = Ok (length (digits_of s)).
Proof. unfold digit_count, Py.only_digits. simpl. by rewrite length_of_chars. Qed.

Lemma validar_cnpj_true_length s :
  validar_cnpj (JStr s) = Ok true → length (digits_of s) = 14%nat.
Proof.
  rewrite validar_cnpj_str. cbv zeta.
  destruct (length (digits_of s) =? 14)%nat eqn:Hlen.
  - intros _. by apply Nat.eqb_eq.
  - simpl. discriminate.
Qed.

Lemma validar_cpf_true_length s :
  validar_cpf (JStr s) = Ok true → length (digits_of s) = 11%nat.
Proof.
  unfold validar_cpf, Py.only_digits. simpl. rewrite chars_of_chars.
  fold (digits_of s).
  destruct (length (digits_of s) =? 11)%nat eqn:Hlen.
  - intros _. by apply Nat.eqb_eq.
  - simpl. discriminate.
Qed.

Lemma digits_nonempty_truthy s :
  digits_of s ≠ [] → Py.truthy (JStr s) = true.
Proof. destruct s; [done | reflexivity]. Qed.

(** C8. An OCR-format record (format 'ocr' or 'ocr_ia', no failure signal)
    whose issue date is absent while the issuer ID is valid, the recipient
    ID is present and valid as a CNPJ or as a CPF, and the number, the
    declared total and the service description are present, is audited to
    the status 'warning' with the one warning about the date and no error. *)
Theorem C8_ocr_missing_issue_date lookup dados emit dest :
  Py.mem "erro" dados = false →
  Py.get dados "formato" = JStr "ocr" ∨ Py.get dados "formato" = JStr "ocr_ia" →
  Py.get dados "emitente_cnpj" = JStr emit →
  validar_cnpj (JStr emit) = Ok true →
  Py.get dados "destinatario_cnpj_cpf" = JStr dest →
  validar_cnpj (JStr dest) = Ok true ∨ validar_cpf (JStr dest) = Ok true →
  Py.truthy (Py.get dados "numero") = true →
  Py.truthy (Py.get dados "valor_total_nota") = true →
  Py.truthy (Py.get dados "discriminacao_servicos") = true →
  Py.lookup "data_emissao" dados = None →
  auditar_e_salvar_dados_fiscais lookup dados =
    Ok (Audited {| status := "warning"; issues := [];
                   warnings := ["Data de emissão não informada."];
                   ncm_info := [] |}).
Proof.
  intros Herro Hfmt Hemit Hvemit Hdest Hvdest Hnum Htot Hdisc Hdata.
  assert (Hocr : is_ocr (Py.get dados "formato") = true).
  { by destruct Hfmt as [-> | ->]. }
  assert (Htemit : Py.truthy (JStr emit) = true).
  { apply digits_nonempty_truthy. intros E.
    apply validar_cnpj_true_length in Hvemit. by rewrite E in Hvemit. }
  assert (Htdest : Py.truthy (JStr dest) = true).
  { apply digits_nonempty_truthy. intros E.
    destruct Hvdest as [H|H];
      [apply validar_cnpj_true_length in H | apply validar_cpf_true_length in H];
      by rewrite E in H. }
  unfold auditar_e_salvar_dados_fiscais. rewrite Herro, Hocr.
  unfold _auditar_dados_nfs_ocr.
  rewrite Hemit, Htemit, Hvemit, Hdest, Htdest, Hnum, Htot, Hdisc.
  assert (Hdata' : Py.get dados "data_emissao" = JNull).
  { unfold Py.get. by rewrite Hdata. }
  rewrite Hdata', !digit_count_str.
  destruct Hvdest as [Hv|Hv].
  - rewrite (validar_cnpj_true_length _ Hv), Hv.
    cbn -[validar_cpf validar_cnpj Py.str String.append]. reflexivity.
  - rewrite (validar_cpf_true_length _ Hv), Hv.
    cbn -[validar_cpf validar_cnpj Py.str String.append]. reflexivity.
Qed.

Lemma C8_ocr_missing_issue_date_witness :
  auditar_e_salvar_dados_fiscais Samples.tipi Samples.nota_ocr_sem_data =
    Ok (Audited {| status := "warning"; issues := [];
                   warnings := ["Data de emissão não informada."];
                   ncm_info := [] |}).
Proof.
  apply (C8_ocr_missing_issue_date Samples.tipi Samples.nota_ocr_sem_data
           "11.222.333/0001-81" "529.982.247-25");
    try (vm_compute; reflexivity).
  - right. reflexivity.
  - right. vm_compute. reflexivity.
Defined.

(** ** Monetary normalisation *)

Lemma lstrip_length l : (length (Str.lstrip l) ≤ length l)%nat.
Proof. induction l as [|c l IH]; simpl; [lia |]. destruct (Str.isspace c); simpl; lia. Qed.

Lemma lstrip_idem l : Str.lstrip (Str.lstrip l) = Str.lstrip l.
Proof.
  induction l as [|c l IH]; simpl; [done |].
  destruct (Str.isspace c) eqn:Hc; [done |]. simpl. by rewrite Hc.
Qed.

Lemma lstrip_spaces w l :
  Forall (λ c, Str.isspace c = true) w → Str.lstrip (w ++ l) = Str.lstrip l.
Proof. induction 1 as [|c w Hc _ IH]; simpl; [done |]. by rewrite Hc. Qed.

Lemma lstrip_split l :
  ∃ w, Forall (λ c, Str.isspace c = true) w ∧ l = w ++ Str.lstrip l.
Proof.
  induction l as [|c l (w & Hw & IH)]; simpl; [by exists [] |].
  destruct (Str.isspace c) eqn:Hc.
  - exists (c :: w). split; [by constructor |]. simpl. by f_equal.
  - by exists [].
Qed.

Lemma lstrip_app_l l w :
  Str.lstrip l ≠ [] → Str.lstrip (l ++ w) = Str.lstrip l ++ w.
Proof.
  induction l as [|c l IH]; simpl; [done |].
  destruct (Str.isspace c); [exact IH | done].
Qed.

Lemma lstrip_all_spaces w :
  Forall (λ c, Str.isspace c = true) w → Str.lstrip w = [].
Proof. induction 1 as [|c w Hc _ IH]; simpl; [done |]. by rewrite Hc. Qed.

Lemma strip_chars_spaces_l w l :
  Forall (λ c, Str.isspace c = true) w →
  Str.strip_chars (w ++ l) = Str.strip_chars l.
Proof. intros Hw. unfold Str.strip_chars. by rewrite lstrip_spaces. Qed.

Lemma strip_chars_spaces_r w l :
  Forall (λ c, Str.isspace c = true) w →
  Str.strip_chars (l ++ w) = Str.strip_chars l.
Proof.
  intros Hw. unfold Str.strip_chars.
  destruct (Str.lstrip l) as [|c t] eqn:Hl.
  - destruct (lstrip_split l) as (w' & Hw' & El). rewrite Hl, app_nil_r in El.
    subst w'. rewrite lstrip_spaces by done.
    by rewrite (lstrip_all_spaces _ Hw).
  - rewrite lstrip_app_l by (rewrite Hl; done). rewrite Hl.
    rewrite rev_app_distr. rewrite lstrip_spaces; [done |].
    apply Forall_rev. done.
Qed.

(** A text is its stripped part between two runs of white space, and the
    stripped part starts and ends with no white space. *)
Lemma strip_chars_split l :
  ∃ w1 w2,
    Forall (λ c, Str.isspace c = true) w1 ∧
    Forall (λ c, Str.isspace c = true) w2 ∧
    l = w1 ++ Str.strip_chars l ++ w2.
Proof.
  destruct (lstrip_split l) as (w1 & Hw1 & E1).
  destruct (lstrip_split (rev (Str.lstrip l))) as (w2 & Hw2 & E2).
  exists w1, (rev w2). split; [done |]. split; [by apply Forall_rev |].
  unfold Str.strip_chars. rewrite <- rev_app_distr, <- E2, rev_involutive.
  exact E1.
Qed.

Lemma strip_chars_idem l :
  Str.strip_chars (Str.strip_chars l) = Str.strip_chars l.
Proof.
  destruct (strip_chars_split l) as (w1 & w2 & H1 & H2 & E).
  rewrite E at 2.
  by rewrite strip_chars_spaces_l, strip_chars_spaces_r.
Qed.

Lemma chars_normalize_format s :
  Str.chars (normalize_format s)
    = nf_chars (Str.contains "," s && Str.contains "." s) (Str.chars s).
Proof.
  unfold normalize_format, Str.replace, Str.remove, nf_chars.
  rewrite chars_of_chars.
  destruct (Str.contains "," s && Str.contains "." s); [| done].
  by rewrite chars_of_chars.
Qed.

Lemma chars_strip s : Str.chars (Str.strip s) = Str.strip_chars (Str.chars s).
Proof. unfold Str.strip. apply chars_of_chars. Qed.

Lemma nf_chars_app b x y : nf_chars b (x ++ y) = nf_chars b x ++ nf_chars b y.
Proof.
  unfold nf_chars, comma_to_point, drop_points.
  destruct b; [rewrite List.filter_app |]; apply map_app.
Qed.

Lemma nf_chars_spaces b w :
  Forall (λ c, Str.isspace c = true) w → nf_chars b w = w.
Proof.
  unfold nf_chars, comma_to_point, drop_points.
  induction 1 as [|c w Hc _ IH]; [by destruct b |].
  assert (Ascii.eqb c "." = false ∧ Ascii.eqb c "," = false) as [Hp Hv].
  { split; apply Ascii.eqb_neq; intros ->; discriminate. }
  destruct b; simpl in *; rewrite ?Hp, ?Hv; simpl; rewrite ?Hv; by f_equal.
Qed.

Lemma has_app c x y : has c (x ++ y) = has c x || has c y.
Proof. apply existsb_app. Qed.

Lemma has_spaces c w :
  Str.isspace c = false → Forall (λ c, Str.isspace c = true) w → has c w = false.
Proof.
  intros Hc. induction 1 as [|d w Hd _ IH]; simpl; [done |].
  rewrite IH, orb_false_r. apply Ascii.eqb_neq. intros ->. congruence.
Qed.

Lemma has_strip c l :
  Str.isspace c = false → has c (Str.strip_chars l) = has c l.
Proof.
  intros Hc. destruct (strip_chars_split l) as (w1 & w2 & H1 & H2 & E).
  rewrite E at 2.
  rewrite !has_app, (has_spaces c w1), (has_spaces c w2) by done.
  by rewrite orb_false_r.
Qed.

Lemma contains_strip c s :
  Str.isspace c = false → Str.contains c (Str.strip s) = Str.contains c s.
Proof. intros Hc. unfold Str.contains. rewrite chars_strip. by apply has_strip. Qed.

Lemma has_comma_nf b l : has "," (nf_chars b l) = false.
Proof.
  unfold nf_chars, comma_to_point.
  induction (if b then drop_points l else l) as [|c t IH]; [done |].
  unfold has in *. cbn [map existsb]. rewrite IH, orb_false_r.
  destruct (Ascii.eqb_spec c ","); [done |].
  apply Ascii.eqb_neq. congruence.
Qed.

Lemma comma_to_point_id l : has "," l = false → comma_to_point l = l.
Proof.
  unfold has, comma_to_point.
  induction l as [|c t IH]; [done |]. cbn [map existsb].
  intros [H1 H2]%orb_false_iff. rewrite (IH H2).
  rewrite Ascii.eqb_sym in H1. by rewrite H1.
Qed.

Lemma nf_chars_nil b l :
  b = has "," l && has "." l → nf_chars b l = [] → l = [].
Proof.
  unfold nf_chars, comma_to_point. intros Hb H.
  apply map_eq_nil in H. destruct b; [| done].
  symmetry in Hb. apply andb_true_iff in Hb as [Hc _].
  exfalso. unfold has in Hc. apply existsb_exists in Hc as (x & Hx & E).
  apply Ascii.eqb_eq in E. subst x.
  assert (In ","%char (drop_points l)) as Hin.
  { apply List.filter_In. by split. }
  by rewrite H in Hin.
Qed.

Lemma chars_nil s : Str.chars s = [] → s = "".
Proof. by destruct s. Qed.

Lemma normalize_format_empty s : normalize_format s = "" → s = "".
Proof.
  intros H. apply chars_nil.
  apply (nf_chars_nil (Str.contains "," s && Str.contains "." s)); [done |].
  by rewrite <- chars_normalize_format, H.
Qed.

Lemma to_decimal_str s :
  s ≠ "" → _to_decimal (JStr s) = Dec.of_string (normalize_format (Str.strip s)).
Proof.
  intros Hs. unfold _to_decimal. simpl.
  destruct (String.eqb_spec s ""); [done |]. reflexivity.
Qed.

Lemma of_string_strip_ext a b :
  Str.strip_chars (Str.chars a) = Str.strip_chars (Str.chars b) →
  Dec.of_string a = Dec.of_string b.
Proof. unfold Dec.of_string. by intros ->. Qed.

Lemma to_decimal_normalized s :
  _to_decimal (JStr (normalize_format s)) = _to_decimal (JStr s).
Proof.
  destruct (decide (s = "")) as [->|Hs]; [reflexivity |].
  rewrite !to_decimal_str; [| done | by intros ?%normalize_format_empty].
  apply of_string_strip_ext.
  rewrite !chars_normalize_format, !chars_strip, !chars_normalize_format.
  rewrite !contains_strip by done.
  set (b := Str.contains "," s && Str.contains "." s).
  assert (Str.contains "," (normalize_format s) = false) as ->.
  { unfold Str.contains. rewrite chars_normalize_format. apply has_comma_nf. }
  simpl. unfold nf_chars at 1. rewrite comma_to_point_id.
  2:{ rewrite has_strip by done. apply has_comma_nf. }
  rewrite strip_chars_idem.
  destruct (strip_chars_split (Str.chars s)) as (w1 & w2 & H1 & H2 & E).
  rewrite E at 1.
  rewrite !nf_chars_app, (nf_chars_spaces b w1), (nf_chars_spaces b w2) by done.
  by rewrite strip_chars_spaces_l, strip_chars_spaces_r.
Qed.

(** C5. The monetary normaliser: with both a comma and a point in the text,
    every point is removed and the comma becomes the decimal point; with a
    comma only, the comma becomes the decimal point; an empty or absent
    value is exactly zero; a text already rewritten by the policy
    normalises to the same decimal; and "1.234,56" and "1234.56" are both
    the exact decimal 1234.56. *)
Theorem C5_monetary_normalization :
  (∀ s, Str.contains "," s = true → Str.contains "." s = true →
     _to_decimal (JStr s)
       = Dec.of_string (Str.replace "," "." (Str.remove "." (Str.strip s)))) ∧
  (∀ s, Str.contains "," s = true → Str.contains "." s = false →
     _to_decimal (JStr s) = Dec.of_string (Str.replace "," "." (Str.strip s))) ∧
  _to_decimal (JStr "") = Ok (Dec.Finite false 0 (-1)) ∧
  _to_decimal JNull = Ok (Dec.Finite false 0 (-1)) ∧
  (∀ s, _to_decimal (JStr (normalize_format s)) = _to_decimal (JStr s)) ∧
  _to_decimal (JStr "1.234,56") = Ok (Dec.Finite false 123456 (-2)) ∧
  _to_decimal (JStr "1234.56") = Ok (Dec.Finite false 123456 (-2)).
Proof.
  split; [| split; [| split; [| split; [| split; [| split]]]]].
  - intros s Hc Hp.
    assert (Hs : s ≠ "") by (intros ->; discriminate).
    rewrite (to_decimal_str _ Hs). unfold normalize_format.
    by rewrite !contains_strip, Hc, Hp.
  - intros s Hc Hp.
    assert (Hs : s ≠ "") by (intros ->; discriminate).
    rewrite (to_decimal_str _ Hs). unfold normalize_format.
    by rewrite !contains_strip, Hc, Hp.
  - vm_compute. reflexivity.
  - vm_compute. reflexivity.
  - apply to_decimal_normalized.
  - vm_compute. reflexivity.
  - vm_compute. reflexivity.
Qed.

Lemma C5_monetary_normalization_witness :
  _to_decimal (JStr " 1.234.567,89 ") = Ok (Dec.Finite false 123456789 (-2)) ∧
  _to_decimal (JStr "12,5") = Ok (Dec.Finite false 125 (-1)).
Proof.
  destruct C5_monetary_normalization as (Hboth & Hcomma & _).
  split.
  - rewrite (Hboth " 1.234.567,89 "); vm_compute; reflexivity.
  - rewrite (Hcomma "12,5"); vm_compute; reflexivity.
Defined.

(** ** The item loop *)

Ltac inv_bind H :=
  let a := fresh "a" in
  let Ha := fresh "Ha" in
  apply bind_Ok_inv in H as (a & Ha & H).

Section Loop.

Variable lookup : json → option ncm_row.

Lemma grows_same st st' : st_issues st' = st_issues st → grows st st'.
Proof. intros H. exists []. by rewrite H, app_nil_r. Qed.

Lemma grows_refl st : grows st st.
Proof. by apply grows_same. Qed.

Lemma grows_trans st1 st2 st3 : grows st1 st2 → grows st2 st3 → grows st1 st3.
Proof.
  intros (x & Hx & Fx) (y & Hy & Fy). exists (x ++ y).
  split; [by rewrite Hy, Hx, app_assoc | by apply Forall_app].
Qed.

Lemma grows_elem st st' m : grows st st' → m ∈ st_issues st → m ∈ st_issues st'.
Proof. intros (x & -> & _) Hm. apply elem_of_app. by left. Qed.

Lemma item_prefix_not_A i item rest :
  starts_with_A (item_prefix i item +:+ rest) = false.
Proof. reflexivity. Qed.

Lemma grows_add_issue st i item rest :
  grows st (add_issue st (item_prefix i item +:+ rest)).
Proof.
  eexists. split; [reflexivity |]. constructor; [| constructor].
  apply item_prefix_not_A.
Qed.

Lemma check_ipi_core prefix item row st st' :
  check_ipi prefix item row st = Ok st' →
  calculated_sum st' = calculated_sum st ∧ st_issues st' = st_issues st.
Proof.
  unfold check_ipi. intros H.
  apply try_except_Ok_inv in H as [H | (e & _ & _ & H)].
  - do 3 inv_bind H.
    destruct (is_None _); [by injection H as <- |].
    do 2 inv_bind H.
    apply bind_Ok_inv in H as (differ & _ & H).
    destruct differ; by injection H as <-.
  - by injection H as <-.
Qed.

Lemma audit_ncm_core i item st st' :
  audit_ncm lookup i item st = Ok st' →
  calculated_sum st' = calculated_sum st ∧ grows st st' ∧
  (Py.truthy (Py.get item "ncm") = true → lookup (Py.get item "ncm") = None →
   ncm_unknown i item ∈ st_issues st').
Proof.
  unfold audit_ncm. intros H.
  destruct (Py.truthy (Py.get item "ncm")) eqn:Hncm; simpl in H.
  - destruct (lookup (Py.get item "ncm")) as [row|] eqn:Hrow.
    + apply check_ipi_core in H as [Hs Hi]. simpl in *.
      split; [done |]. split; [by apply grows_same | done].
    + injection H as <-. split; [done |]. split.
      * apply grows_add_issue.
      * intros _ _. simpl. apply elem_of_app. right. by apply list_elem_of_singleton.
  - injection H as <-. split; [done |]. split; [| done].
    apply grows_add_issue.
Qed.

Lemma audit_cfop_core i item st st' :
  audit_cfop i item st = Ok st' →
  calculated_sum st' = calculated_sum st ∧ st_issues st' = st_issues st.
Proof.
  unfold audit_cfop. intros H.
  apply bind_Ok_inv in H as (bad & _ & H).
  destruct bad; by injection H as <-.
Qed.

Lemma audit_valor_total_core i item st st' :
  audit_valor_total i item st = Ok st' →
  calculated_sum st' = accumulate (calculated_sum st) (JObj item) ∧ grows st st'.
Proof.
  unfold audit_valor_total, accumulate, line_total, try_except. simpl.
  destruct (_to_decimal (Py.get_default item "valor_total" (JStr "0")))
    as [v|e1]; simpl.
  - destruct (Dec.add (calculated_sum st) v) as [s|e2]; simpl.
    + intros [= <-]. split; [done | by apply grows_same].
    + destruct e2; simpl; try discriminate;
        intros [= <-]; (split; [done | apply grows_add_issue]).
  - destruct e1; simpl; try discriminate;
      intros [= <-]; (split; [done | apply grows_add_issue]).
Qed.

Lemma audit_item_core i item st st' :
  audit_item lookup i item st = Ok st' →
  calculated_sum st' = accumulate (calculated_sum st) item ∧ grows st st' ∧
  (∀ it, item = JObj it → Py.truthy (Py.get it "ncm") = true →
     lookup (Py.get it "ncm") = None → ncm_unknown i it ∈ st_issues st').
Proof.
  unfold audit_item. intros H.
  apply bind_Ok_inv in H as (it & Hit & H).
  destruct item; try discriminate. injection Hit as ->.
  apply bind_Ok_inv in H as (st1 & H1 & H).
  apply bind_Ok_inv in H as (st2 & H2 & H).
  apply audit_ncm_core in H1 as (Hs1 & Hg1 & Hn1).
  apply audit_cfop_core in H2 as (Hs2 & Hi2).
  apply audit_valor_total_core in H as (Hs3 & Hg3).
  assert (Hg2 : grows st1 st2) by (by apply grows_same).
  split; [by rewrite Hs3, Hs2, Hs1 |].
  split; [by eauto using grows_trans |].
  intros it' [= <-] Ht Hl.
  eapply grows_elem; [exact Hg3 |]. rewrite Hi2. by apply Hn1.
Qed.

Lemma audit_items_core items : ∀ i st st',
  audit_items lookup i items st = Ok st' →
  calculated_sum st' = fold_left accumulate items (calculated_sum st) ∧
  grows st st' ∧
  (∀ k it, items !! k = Some (JObj it) →
     Py.truthy (Py.get it "ncm") = true → lookup (Py.get it "ncm") = None →
     ncm_unknown (i + k) it ∈ st_issues st').
Proof.
  induction items as [|item items IH]; intros i st st' H; simpl in H.
  - injection H as <-. split; [done |]. split; [apply grows_refl |].
    intros k it Hk. by rewrite lookup_nil in Hk.
  - apply bind_Ok_inv in H as (st1 & H1 & H).
    apply audit_item_core in H1 as (Hs1 & Hg1 & Hn1).
    apply IH in H as (Hs & Hg & Hn).
    split; [simpl; by rewrite Hs, Hs1 |].
    split; [by eauto using grows_trans |].
    intros [|k] it Hk Ht Hl; simpl in Hk.
    + injection Hk as ->. rewrite Nat.add_0_r.
      eapply grows_elem; [exact Hg |]. by eapply Hn1.
    + replace (i + S k)%nat with (S i + k)%nat by lia. by apply Hn.
Qed.

Lemma audit_header_core dados st :
  audit_header dados = Ok st →
  calculated_sum st = Dec.Finite false 0 (-2) ∧
  Forall (λ m, starts_with_A m = false) (st_issues st).
Proof.
  unfold audit_header. intros H.
  apply bind_Ok_inv in H as (bad & _ & H). injection H as <-.
  destruct (negb (Py.truthy (Py.get dados "numero"))), bad,
    (negb (Py.truthy (Py.get_default dados "itens" (JList []))));
    simpl; (split; [done |]); repeat constructor.
Qed.

End Loop.

(** ** Decimal arithmetic within the precision *)

Lemma digits_le_length fuel : ∀ n k,
  (1 ≤ k)%nat → (n < 10 ^ N.of_nat k)%N →
  (length (Str.digits_le fuel n) ≤ k)%nat.
Proof.
  induction fuel as [|fuel IH]; intros n k Hk Hn; simpl; [lia |].
  destruct (N.ltb_spec n 10) as [Hlt|Hge]; simpl; [lia |].
  destruct k as [|[|k]]; [lia | |].
  - change (10 ^ N.of_nat 1)%N with 10%N in Hn. lia.
  - specialize (IH (n / 10)%N (S k)). 
    assert (n / 10 < 10 ^ N.of_nat (S k))%N.
    { apply N.Div0.div_lt_upper_bound.
      replace (N.of_nat (S (S k))) with (N.succ (N.of_nat (S k))) in Hn by lia.
      rewrite N.pow_succ_r' in Hn. lia. }
    assert (length (Str.digits_le fuel (n / 10)) ≤ S k)%nat by (apply IH; lia).
    lia.
Qed.

Lemma ndigits_bound c : (c < 10 ^ 28)%N → Dec.ndigits c ≤ 28.
Proof.
  intros H. unfold Dec.ndigits, Str.digits_of_N. rewrite length_rev.
  pose proof (digits_le_length (S (N.to_nat (N.log2 c))) c 28) as Hl.
  change (N.of_nat 28) with 28%N in Hl. lia.
Qed.

Lemma fix_exact s c e :
  (c < 10 ^ 28)%N → Dec.Etiny ≤ e ≤ Dec.Etop →
  Dec.fix_ (Dec.Finite s c e) = Ok (Dec.Finite s c e).
Proof.
  intros Hc He. unfold Dec.fix_.
  unfold Dec.Etiny, Dec.Etop, Dec.Emax, Dec.Emin, Dec.prec in *.
  destruct (N.eqb_spec c 0) as [->|Hne].
  - do 2 f_equal. lia.
  - pose proof (ndigits_bound c Hc) as Hd.
    destruct (Z.ltb_spec (999999 - 28 + 1) (Dec.ndigits c + e - 28)); [lia |].
    destruct (Z.ltb_spec e (Z.max (Dec.ndigits c + e - 28) (-999999 - 28 + 1)));
      [lia | done].
Qed.

Lemma signed_negb s c : Dec.signed (negb s) c = - Dec.signed s c.
Proof. destruct s; simpl; lia. Qed.

Lemma sub_finite s1 c1 e1 s2 c2 e2 :
  Dec.sub (Dec.Finite s1 c1 e1) (Dec.Finite s2 c2 e2) =
    let e := Z.min e1 e2 in
    let z := Dec.signed s1 c1 * 10 ^ (e1 - e) - Dec.signed s2 c2 * 10 ^ (e2 - e) in
    if z =? 0 then Dec.fix_ (Dec.Finite (s1 && negb s2) 0 e)
    else Dec.fix_ (Dec.Finite (z <? 0) (Z.abs_N z) e).
Proof.
  unfold Dec.sub, Dec.add. cbn [Dec.check_nans Dec.copy_negate].
  rewrite signed_negb. cbv zeta.
  replace (Dec.signed s1 c1 * 10 ^ (e1 - Z.min e1 e2)
           + - Dec.signed s2 c2 * 10 ^ (e2 - Z.min e1 e2))
    with (Dec.signed s1 c1 * 10 ^ (e1 - Z.min e1 e2)
          - Dec.signed s2 c2 * 10 ^ (e2 - Z.min e1 e2)) by lia.
  reflexivity.
Qed.

(** Within the precision the tolerance test is the exact comparison: with
    both values written in units of [10^e], [e] the smaller exponent, the
    test says whether they differ by more than [10^(-2-e)] units. *)
Lemma exceeds_tolerance_exact s1 c1 e1 s2 c2 e2 :
  let e := Z.min e1 e2 in
  let z := Dec.signed s1 c1 * 10 ^ (e1 - e) - Dec.signed s2 c2 * 10 ^ (e2 - e) in
  Dec.Etiny ≤ e ≤ -2 → Z.abs z < 10 ^ 28 →
  exceeds_tolerance (Dec.Finite s1 c1 e1) (Dec.Finite s2 c2 e2)
    = Ok (10 ^ (-2 - e) <? Z.abs z).
Proof.
  intros e z He Hz. unfold exceeds_tolerance.
  assert (Hc : (Z.abs_N z < 10 ^ 28)%N).
  { apply N2Z.inj_lt. rewrite N2Z.inj_abs_N.
    change (Z.of_N (10 ^ 28)) with (10 ^ 28). lia. }
  assert (Hr : Dec.Etiny ≤ e ≤ Dec.Etop).
  { unfold Dec.Etiny, Dec.Etop, Dec.Emax, Dec.Emin, Dec.prec in *. lia. }
  assert (Hsub : ∃ sg, Dec.sub (Dec.Finite s1 c1 e1) (Dec.Finite s2 c2 e2)
                       = Ok (Dec.Finite sg (Z.abs_N z) e)).
  { rewrite sub_finite. cbv zeta. fold e. fold z.
    destruct (Z.eqb_spec z 0) as [E|_].
    - exists (s1 && negb s2). rewrite E. by apply fix_exact.
    - exists (z <? 0). by apply fix_exact. }
  destruct Hsub as (sg & ->). cbn [mbind result_bind Dec.abs].
  rewrite fix_exact by done. cbn [mbind result_bind].
  unfold Dec.gt. cbn [Dec.is_nan orb Dec.cmp]. f_equal.
  rewrite Z.min_l by lia. rewrite Z.sub_diag.
  cbn [Dec.signed]. rewrite N2Z.inj_abs_N.
  change (Z.of_N 1) with 1. rewrite Z.pow_0_r, Z.mul_1_r, Z.mul_1_l.
  destruct (Z.ltb_spec (10 ^ (-2 - e)) (Z.abs z)) as [H|H].
  - apply Z.compare_gt_iff in H. by rewrite H.
  - destruct (Z.compare_spec (Z.abs z) (10 ^ (-2 - e))); (done || lia).
Qed.

Lemma digit_char_isdigit d : (d < 10)%N → Str.isdigit (Str.digit_char d) = true.
Proof.
  intros H. unfold Str.isdigit, Str.digit_char.
  rewrite N_ascii_embedding by lia.
  apply andb_true_iff. split; apply N.leb_le; lia.
Qed.

Lemma digits_le_isdigit fuel : ∀ n,
  Forall (λ c, Str.isdigit c = true) (Str.digits_le fuel n).
Proof.
  induction fuel as [|fuel IH]; intros n; simpl; [constructor |].
  destruct (N.ltb_spec n 10).
  - repeat constructor. by apply digit_char_isdigit.
  - constructor; [| apply IH]. apply digit_char_isdigit.
    apply N.mod_lt. lia.
Qed.

Lemma digits_of_N_isdigit n :
  Forall (λ c, Str.isdigit c = true) (Str.digits_of_N n).
Proof. apply Forall_rev, digits_le_isdigit. Qed.

(** A number is printed with exactly two digits after the point. *)
Lemma format_2f_two_places s c e :
  ∃ ip fp,
    Dec.format_2f (Dec.Finite s c e) = Str.of_chars (ip ++ "."%char :: fp) ∧
    length fp = 2%nat ∧ Forall (λ c, Str.isdigit c = true) fp.
Proof.
  unfold Dec.format_2f.
  set (ds := Str.digits_of_N (Dec.rescale s c e (-2))).
  pose proof (digits_of_N_isdigit (Dec.rescale s c e (-2))) as Hds. fold ds in Hds.
  set (dotplace := Z.of_nat (length ds) - 2).
  eexists (Dec.sign_str s ++ _), _. rewrite <- app_assoc.
  split; [reflexivity |].
  destruct (Z.ltb_spec dotplace 0) as [Hneg|Hpos].
  - split.
    + rewrite length_app. unfold Dec.zeros. rewrite length_replicate. lia.
    + apply Forall_app. split; [| done]. by apply Forall_replicate.
  - split.
    + rewrite length_drop. lia.
    + by apply Forall_drop.
Qed.

(** ** The structured path *)

Lemma auditar_estruturado_inv lookup dados issues warnings info :
  auditar_estruturado lookup dados = Ok (issues, warnings, info) →
  ∃ items pre t exceeds,
    iterate (Py.get_default dados "itens" (JList [])) = Ok items ∧
    Forall (λ m, starts_with_A m = false) pre ∧
    (∀ k it, items !! k = Some (JObj it) →
       Py.truthy (Py.get it "ncm") = true → lookup (Py.get it "ncm") = None →
       ncm_unknown (S k) it ∈ pre) ∧
    _to_decimal (Py.get_default dados "valor_total_nota" (JStr "0")) = Ok t ∧
    exceeds_tolerance (soma_itens items) t = Ok exceeds ∧
    issues = pre ++ (if exceeds : bool
                     then [reconciliation_error (soma_itens items) t] else []).
Proof.
  unfold auditar_estruturado. intros H.
  apply bind_Ok_inv in H as (st0 & H0 & H).
  apply bind_Ok_inv in H as (items & Hitems & H).
  apply bind_Ok_inv in H as (st & Hloop & H).
  apply bind_Ok_inv in H as (t & Ht & H).
  apply bind_Ok_inv in H as (exceeds & Hex & H).
  apply audit_header_core in H0 as (Hs0 & Hi0).
  apply audit_items_core in Hloop as (Hs & (extra & Hg & Hextra) & Hn).
  assert (Hsum : calculated_sum st = soma_itens items).
  { unfold soma_itens. by rewrite Hs, Hs0. }
  rewrite Hsum in *.
  exists items, (st_issues st), t, exceeds.
  split; [done |]. split; [rewrite Hg; by apply Forall_app |].
  split; [exact Hn |]. split; [done |]. split; [done |].
  destruct exceeds; injection H as <- _ _; simpl; [done | by rewrite app_nil_r].
Qed.

Lemma auditar_structured_inv lookup dados r :
  Py.mem "erro" dados = false →
  is_ocr (Py.get dados "formato") = false →
  auditar_e_salvar_dados_fiscais lookup dados = Ok (Audited r) →
  auditar_estruturado lookup dados = Ok (issues r, warnings r, ncm_info r).
Proof.
  unfold auditar_e_salvar_dados_fiscais. intros -> -> H.
  destruct (auditar_estruturado lookup dados) as [[[i w] n]|e]; [| done].
  simpl in H. unfold classify in H. by injection H as <-.
Qed.

Lemma reconciliation_error_fresh pre s t :
  Forall (λ m, starts_with_A m = false) pre → reconciliation_error s t ∉ pre.
Proof.
  intros Hpre Hin. rewrite Forall_forall in Hpre.
  specialize (Hpre _ Hin). discriminate.
Qed.

Lemma exceeds_tolerance_within_precision a b :
  within_precision a b →
  exceeds_tolerance a b = Ok (differ_by_more_than_a_cent a b).
Proof.
  destruct a as [s1 c1 e1| |], b as [s2 c2 e2| |]; try done.
  intros [He Hz]. unfold differ_by_more_than_a_cent.
  cbn [common_exp scaled] in *. cbv zeta.
  rewrite (Z.min_l (Z.min e1 e2) (-2)) by lia.
  by apply exceeds_tolerance_exact.
Qed.

(** Within the precision an addition of the loop is exact: the sum is
    written at the smaller exponent with the exact coefficient. *)
Lemma add_exact s1 c1 e1 s2 c2 e2 :
  let e := Z.min e1 e2 in
  let z := Dec.signed s1 c1 * 10 ^ (e1 - e) + Dec.signed s2 c2 * 10 ^ (e2 - e) in
  Dec.Etiny ≤ e ≤ Dec.Etop → Z.abs z < 10 ^ 28 →
  ∃ sg, Dec.add (Dec.Finite s1 c1 e1) (Dec.Finite s2 c2 e2)
          = Ok (Dec.Finite sg (Z.abs_N z) e) ∧
        Dec.signed sg (Z.abs_N z) = z.
Proof.
  intros e z He Hz. unfold Dec.add. cbn [Dec.check_nans]. fold e. fold z.
  assert (Hc : (Z.abs_N z < 10 ^ 28)%N).
  { apply N2Z.inj_lt. rewrite N2Z.inj_abs_N.
    change (Z.of_N (10 ^ 28)) with (10 ^ 28). lia. }
  destruct (Z.eqb_spec z 0) as [E|Hne].
  - exists (s1 && s2). rewrite E. split; [by apply fix_exact |].
    by destruct (s1 && s2).
  - exists (z <? 0). split; [by apply fix_exact |].
    unfold Dec.signed. rewrite N2Z.inj_abs_N.
    destruct (Z.ltb_spec z 0); lia.
Qed.

(** C3 as stated fails beyond the precision of the arithmetic: the items
    sum to 100.00 and the declared total 100.0100000000000000000000000000001
    differs from it by more than 0.01, yet the difference is rounded to
    28 digits before the test and no reconciliation error is added. *)
Lemma C3_counterexample :
  let dados := Samples.nota_xml "84713012" "100.0100000000000000000000000000001" in
  ∃ r items t,
    auditar_e_salvar_dados_fiscais Samples.tipi dados = Ok (Audited r) ∧
    iterate (Py.get_default dados "itens" (JList [])) = Ok items ∧
    _to_decimal (Py.get_default dados "valor_total_nota" (JStr "0")) = Ok t ∧
    soma_itens items = Dec.Finite false 10000 (-2) ∧
    differ_by_more_than_a_cent (soma_itens items) t = true ∧
    reconciliation_error (soma_itens items) t ∉ issues r ∧
    issues r = [].
Proof.
  eexists _, _, _.
  split; [vm_compute; reflexivity |].
  split; [vm_compute; reflexivity |].
  split; [vm_compute; reflexivity |].
  split; [vm_compute; reflexivity |].
  split; [vm_compute; reflexivity |].
  split; [| reflexivity].
  cbn [issues]. apply not_elem_of_nil.
Qed.

(** C3 (amended). In the structured path the running sum of the line
    totals that parse, accumulated in the 28-digit decimal context, is
    compared with the normalised declared total: the engine adds the
    reconciliation error, which shows both values with two decimal places,
    exactly when [abs(sum - total) > 0.01] as that context computes it.
    Whenever the exact difference of the two values fits the precision
    (28 digits at their smaller exponent), this is the exact comparison:
    a difference of at most 0.01 adds no error and a larger one adds it;
    within the precision each addition of the loop is exact as well.
    Items that sum to 100.00 raise no error against a declared 100.01 and
    raise it against 100.02. *)
Theorem C3_sum_reconciliation :
  (∀ lookup dados r,
     Py.mem "erro" dados = false →
     is_ocr (Py.get dados "formato") = false →
     auditar_e_salvar_dados_fiscais lookup dados = Ok (Audited r) →
     ∃ items t exceeds,
       iterate (Py.get_default dados "itens" (JList [])) = Ok items ∧
       _to_decimal (Py.get_default dados "valor_total_nota" (JStr "0")) = Ok t ∧
       exceeds_tolerance (soma_itens items) t = Ok exceeds ∧
       (reconciliation_error (soma_itens items) t ∈ issues r ↔ exceeds = true) ∧
       (within_precision (soma_itens items) t →
        (reconciliation_error (soma_itens items) t ∈ issues r ↔
         differ_by_more_than_a_cent (soma_itens items) t = true))) ∧
  (∀ s1 c1 e1 s2 c2 e2,
     let e := Z.min e1 e2 in
     let z := Dec.signed s1 c1 * 10 ^ (e1 - e) + Dec.signed s2 c2 * 10 ^ (e2 - e) in
     Dec.Etiny ≤ e ≤ Dec.Etop → Z.abs z < 10 ^ 28 →
     ∃ sg, Dec.add (Dec.Finite s1 c1 e1) (Dec.Finite s2 c2 e2)
             = Ok (Dec.Finite sg (Z.abs_N z) e) ∧
           Dec.signed sg (Z.abs_N z) = z) ∧
  (∀ s c e, ∃ ip fp,
     Dec.format_2f (Dec.Finite s c e) = Str.of_chars (ip ++ "."%char :: fp) ∧
     length fp = 2%nat ∧ Forall (λ c, Str.isdigit c = true) fp) ∧
  (∃ info,
     auditar_e_salvar_dados_fiscais Samples.tipi (Samples.nota_xml "84713012" "100.01")
       = Ok (Audited {| status := "success"; issues := []; warnings := [];
                        ncm_info := info |})) ∧
  (∃ info,
     auditar_e_salvar_dados_fiscais Samples.tipi (Samples.nota_xml "84713012" "100.02")
       = Ok (Audited {| status := "error";
                        issues := ["A soma dos itens (100.00) difere do valor total da nota (100.02)."];
                        warnings := []; ncm_info := info |})).
Proof.
  split; [| split; [| split; [| split]]].
  - intros lookup dados r Herro Hfmt H.
    apply auditar_structured_inv in H; [| done..].
    apply auditar_estruturado_inv in H
      as (items & pre & t & exceeds & Hi & Hpre & _ & Ht & Hex & Hiss).
    exists items, t, exceeds. repeat (split; [done |]).
    assert (Hiff : reconciliation_error (soma_itens items) t ∈ issues r
                   ↔ exceeds = true).
    { rewrite Hiss. destruct exceeds.
      - split; [done |]. intros _. apply elem_of_app. right.
        by apply list_elem_of_singleton.
      - rewrite app_nil_r. split; [| done].
        intros Hin. by apply reconciliation_error_fresh in Hin. }
    split; [exact Hiff |].
    intros Hp. rewrite (exceeds_tolerance_within_precision _ _ Hp) in Hex.
    injection Hex as Hex. by rewrite Hex.
  - apply add_exact.
  - apply format_2f_two_places.
  - eexists. vm_compute. reflexivity.
  - eexists. vm_compute. reflexivity.
Qed.

Lemma C3_sum_reconciliation_witness :
  ∃ items t,
    iterate (Py.get_default (Samples.nota_xml "84713012" "100.02") "itens" (JList []))
      = Ok items ∧
    _to_decimal (JStr "100.02") = Ok t ∧
    within_precision (soma_itens items) t ∧
    differ_by_more_than_a_cent (soma_itens items) t = true ∧
    reconciliation_error (soma_itens items) t
      = "A soma dos itens (100.00) difere do valor total da nota (100.02).".
Proof.
  destruct C3_sum_reconciliation as (Hengine & _).
  destruct (Hengine Samples.tipi (Samples.nota_xml "84713012" "100.02")
              {| status := "error";
                 issues := ["A soma dos itens (100.00) difere do valor total da nota (100.02)."];
                 warnings := [];
                 ncm_info := ["Item A1 (NCM 84713012): Descrição: Maquinas portateis, Alíquota IPI: 0%";
                              "Item A1 (NCM 84713012): Descrição: Maquinas portateis, Alíquota IPI: 0%"] |})
    as (items & t & exceeds & Hi & Ht & Hex & Hiff & Hprec);
    [reflexivity | reflexivity | vm_compute; reflexivity |].
  exists items, t. split; [exact Hi |]. split; [exact Ht |].
  vm_compute in Hi. injection Hi as <-.
  vm_compute in Ht. injection Ht as <-.
  assert (Hp : within_precision
                 (soma_itens [Samples.item "84713012" "60.00";
                              Samples.item "84713012" "40,00"])
                 (Dec.Finite false 10002 (-2))).
  { vm_compute. split; [split; discriminate | reflexivity]. }
  split; [exact Hp |]. split; [| vm_compute; reflexivity].
  apply (Hprec Hp). vm_compute. left.
Defined.

(** C6 (the rule, and the input on which the engine gives no result). When
    the engine completes the audit of a structured record one of whose
    items has a classification code that the lookup does not find, the
    error of that item is among the issues and the status is 'error'.  The
    engine does not complete on every such record: with a declared total
    that is no number it raises InvalidOperation after the item loop. *)
Theorem C6_unknown_ncm_yields_error :
  (∀ lookup dados items k it r,
     Py.mem "erro" dados = false →
     is_ocr (Py.get dados "formato") = false →
     Py.get_default dados "itens" (JList []) = JList items →
     items !! k = Some (JObj it) →
     Py.truthy (Py.get it "ncm") = true →
     lookup (Py.get it "ncm") = None →
     auditar_e_salvar_dados_fiscais lookup dados = Ok (Audited r) →
     ncm_unknown (S k) it ∈ issues r ∧ status r = "error") ∧
  auditar_e_salvar_dados_fiscais Samples.tipi (Samples.nota_xml "99999999" "abc")
    = Raise InvalidOperation.
Proof.
  split; [| vm_compute; reflexivity].
  intros lookup dados items k it r Herro Hfmt Hitens Hk Hncm Hnone H.
  pose proof (audited_status _ _ _ H) as Hst.
  apply auditar_structured_inv in H; [| done..].
  apply auditar_estruturado_inv in H
    as (items' & pre & t & exceeds & Hi & _ & Hn & _ & _ & Hiss).
  rewrite Hitens in Hi. injection Hi as <-.
  assert (Hin : ncm_unknown (S k) it ∈ issues r).
  { rewrite Hiss. apply elem_of_app. left. by apply Hn. }
  split; [done |]. rewrite Hst. apply status_of_error.
  intros E. rewrite E in Hin. by apply not_elem_of_nil in Hin.
Qed.

Lemma C6_unknown_ncm_yields_error_witness :
  ∃ r, auditar_e_salvar_dados_fiscais Samples.tipi (Samples.nota_xml "99999999" "100.00")
         = Ok (Audited r) ∧
       "Item 2 (A1) - NCM '99999999' é inválido ou não foi encontrado na Tabela TIPI."
         ∈ issues r ∧
       status r = "error".
Proof.
  eexists. split; [vm_compute; reflexivity |].
  apply (proj1 C6_unknown_ncm_yields_error Samples.tipi
           (Samples.nota_xml "99999999" "100.00")
           [Samples.item "84713012" "60.00"; Samples.item "99999999" "40,00"]
           1%nat
           [("codigo", JStr "A1"); ("ncm", JStr "99999999"); ("cfop", JStr "5102");
            ("valor_total", JStr "40,00"); ("imposto", JObj [])]);
    vm_compute; reflexivity.
Defined.

(** C1 (evaluation at the failing input). A line total that is no number is
    caught in the item loop and becomes an issue of its item, but the same
    text as declared total of the document is converted outside any
    handler: the engine raises InvalidOperation and returns no result. *)
Theorem C1_unparseable_declared_total_raises :
  auditar_e_salvar_dados_fiscais Samples.tipi (Samples.nota_xml "84713012" "abc")
    = Raise InvalidOperation ∧
  (∃ info,
     auditar_e_salvar_dados_fiscais Samples.tipi Samples.nota_xml_item_invalido
       = Ok (Audited {| status := "error";
                        issues := ["Item 2 (A1) - Contém valor total inválido."];
                        warnings := []; ncm_info := info |})).
Proof. split; [| eexists]; vm_compute; reflexivity. Qed.

(** ** The rules of the default path *)

Section Warnings.

Variable lookup : json → option ncm_row.














End Warnings.




(** * Further properties of the code *)

(** ** The CPF validator *)

Lemma cpf_sum_from cpf top : ∀ n k,
  Forall (λ c, Str.isdigit c = true) cpf →
  (k + n ≤ length cpf)%nat →
  foldr (λ i acc, v ← int_at cpf i; s ← acc; Some (v * (top - Z.of_nat i) + s))
    (Some 0) (seq k n)
  = Some (cpf_dot (take n (drop k cpf)) (top - Z.of_nat k)).
Proof.
  induction n as [|n IH]; intros k Hd Hlen; [reflexivity |].
  cbn [seq foldr].
  destruct (lookup_lt_is_Some_2 cpf k) as [c Hc]; [lia |].
  assert (Hdc : Str.isdigit c = true).
  { eapply Forall_lookup_1 in Hd; [exact Hd | exact Hc]. }
  rewrite (int_at_digit _ _ _ Hc Hdc), IH by (done || lia).
  rewrite (drop_S _ _ _ Hc). cbn [take cpf_dot mbind option_bind].
  do 3 f_equal. lia.
Qed.

Lemma cpf_sum_digits cpf top n :
  Forall (λ c, Str.isdigit c = true) cpf → (n ≤ length cpf)%nat →
  cpf_sum cpf top n = Some (cpf_dot (take n cpf) top).
Proof.
  intros Hd Hn. unfold cpf_sum.
  rewrite (cpf_sum_from cpf top n 0) by (done || lia).
  by rewrite drop_0, Z.sub_0_r.
Qed.

Lemma validar_cpf_str s :
  validar_cpf (JStr s) =
    let cpf := digits_of s in
    if negb (length cpf =? 11)%nat
       || (size (list_to_set (C := gset ascii) cpf) =? 1)%nat
    then Ok false
    else Ok (default false (
      soma ← cpf_sum cpf 10 9;
      let resto := (soma * 10) `mod` 11 in
      let resto := if resto =? 10 then 0 else resto in
      c9 ← int_at cpf 9;
      if negb (resto =? c9) then Some false
      else
        soma ← cpf_sum cpf 11 10;
        let resto := (soma * 10) `mod` 11 in
        let resto := if resto =? 10 then 0 else resto in
        c10 ← int_at cpf 10;
        if negb (resto =? c10) then Some false else Some true)).
Proof.
  unfold validar_cpf, Py.only_digits. simpl.
  rewrite chars_of_chars. reflexivity.
Qed.

Lemma validar_cpf_checks s c9 c10 :
  length (digits_of s) = 11%nat →
  ¬ all_identical (digits_of s) →
  digits_of s !! 9%nat = Some c9 →
  digits_of s !! 10%nat = Some c10 →
  validar_cpf (JStr s) =
    Ok (bool_decide (digit_value c9 = cpf_check_digit (take 9 (digits_of s)) 10)
        && bool_decide (digit_value c10 = cpf_check_digit (take 10 (digits_of s)) 11)).
Proof.
  intros Hlen Hnot H9 H10. rewrite validar_cpf_str. cbv zeta.
  rewrite Hlen, (not_identical_size _ Hnot). simpl negb. simpl orb. cbv iota.
  pose proof (digits_of_isdigit s) as Hd.
  assert (Hc9 : Str.isdigit c9 = true).
  { eapply Forall_lookup_1 in Hd; [exact Hd | exact H9]. }
  assert (Hc10 : Str.isdigit c10 = true).
  { eapply Forall_lookup_1 in Hd; [exact Hd | exact H10]. }
  rewrite !cpf_sum_digits by (done || lia).
  rewrite (int_at_digit _ _ _ H9 Hc9), (int_at_digit _ _ _ H10 Hc10).
  simpl. unfold cpf_check_digit.
  set (dv1 := if (cpf_dot (take 9 (digits_of s)) 10 * 10) `mod` 11 =? 10 then 0
              else (cpf_dot (take 9 (digits_of s)) 10 * 10) `mod` 11).
  set (dv2 := if (cpf_dot (take 10 (digits_of s)) 11 * 10) `mod` 11 =? 10 then 0
              else (cpf_dot (take 10 (digits_of s)) 11 * 10) `mod` 11).
  destruct (Z.eqb_spec dv1 (digit_value c9)) as [E1|E1]; simpl.
  - rewrite bool_decide_eq_true_2 by done.
    destruct (Z.eqb_spec dv2 (digit_value c10)) as [E2|E2]; simpl.
    + by rewrite bool_decide_eq_true_2.
    + by rewrite bool_decide_eq_false_2.
  - by rewrite bool_decide_eq_false_2.
Qed.

Lemma validar_cnpj_str_identical s :
  all_identical (digits_of s) → validar_cnpj (JStr s) = Ok false.
Proof.
  intros Hall. rewrite validar_cnpj_str. cbv zeta.
  destruct (length (digits_of s) =? 14)%nat eqn:Hlen; [| reflexivity].
  apply Nat.eqb_eq in Hlen. simpl negb. rewrite orb_false_l.
  assert (size (list_to_set (C := gset ascii) (digits_of s)) = 1%nat) as ->.
  { apply set_size_one. split; [| done]. intros E. by rewrite E in Hlen. }
  reflexivity.
Qed.

(** X1. The CPF validator accepts an ASCII string exactly when it strips to
    eleven digits, not all the same, whose 10th digit is the check digit of
    the first nine under the weights 10..2 and whose 11th digit is the
    check digit of the first ten under the weights 11..2; on every other
    ASCII string it answers false, and it raises on none. *)
Theorem X1_validar_cpf_decides s :
  ascii_text s = true →
  (validar_cpf (JStr s) = Ok true ↔
     length (digits_of s) = 11%nat ∧ ¬ all_identical (digits_of s) ∧
     ∃ c9 c10,
       digits_of s !! 9%nat = Some c9 ∧ digits_of s !! 10%nat = Some c10 ∧
       digit_value c9 = cpf_check_digit (take 9 (digits_of s)) 10 ∧
       digit_value c10 = cpf_check_digit (take 10 (digits_of s)) 11) ∧
  (validar_cpf (JStr s) = Ok true ∨ validar_cpf (JStr s) = Ok false).
Proof.
  intros _.
  assert (Hbool : validar_cpf (JStr s) = Ok true ∨ validar_cpf (JStr s) = Ok false).
  { rewrite validar_cpf_str. cbv zeta.
    destruct (negb _ || _); [by right |].
    destruct (default false _); [by left | by right]. }
  split; [| exact Hbool]. split.
  - intros H. pose proof (validar_cpf_true_length _ H) as Hlen.
    assert (Hnot : ¬ all_identical (digits_of s)).
    { intros Hall. rewrite (validar_cpf_str_identical _ Hall) in H. discriminate. }
    destruct (lookup_lt_is_Some_2 (digits_of s) 9) as [c9 H9]; [lia |].
    destruct (lookup_lt_is_Some_2 (digits_of s) 10) as [c10 H10]; [lia |].
    rewrite (validar_cpf_checks s c9 c10) in H by done.
    injection H as H. apply andb_true_iff in H as [E1 E2].
    apply bool_decide_eq_true_1 in E1, E2. eauto 10.
  - intros (Hlen & Hnot & c9 & c10 & H9 & H10 & E1 & E2).
    rewrite (validar_cpf_checks s c9 c10) by done.
    by rewrite !bool_decide_eq_true_2.
Qed.

Lemma X1_validar_cpf_decides_witness :
  validar_cpf (JStr "529.982.247-25") = Ok true ∧
  validar_cpf (JStr "529.982.247-26") = Ok false.
Proof.
  split.
  - apply (proj1 (X1_validar_cpf_decides "529.982.247-25" eq_refl)).
    split; [reflexivity |]. split.
    + intros Hall. assert ("5"%char = "2"%char) as E; [| discriminate E].
      apply Hall; vm_compute; repeat constructor.
    + exists "2"%char, "5"%char. repeat split; vm_compute; reflexivity.
  - destruct (proj2 (X1_validar_cpf_decides "529.982.247-26" eq_refl)) as [H|H];
      [vm_compute in H; discriminate H | exact H].
Defined.

(** X2. The CNPJ validator accepts an ASCII string exactly when it strips
    to fourteen digits, not all the same, whose 13th and 14th digits are
    the two mod-11 check digits; it answers false on every other ASCII
    string and raises on none.  Two ASCII strings with the same digits get
    the same answer: punctuation and other ASCII characters have no
    effect. *)
Theorem X2_validar_cnpj_decides s :
  ascii_text s = true →
  (validar_cnpj (JStr s) = Ok true ↔
     length (digits_of s) = 14%nat ∧ ¬ all_identical (digits_of s) ∧
     ∃ c12 c13,
       digits_of s !! 12%nat = Some c12 ∧ digits_of s !! 13%nat = Some c13 ∧
       digit_value c12 = mod11_check_digit (take 12 (digits_of s)) pesos_dv1 ∧
       digit_value c13 = mod11_check_digit (take 13 (digits_of s)) pesos_dv2) ∧
  (validar_cnpj (JStr s) = Ok true ∨ validar_cnpj (JStr s) = Ok false) ∧
  (∀ s', ascii_text s' = true → digits_of s' = digits_of s →
         validar_cnpj (JStr s') = validar_cnpj (JStr s)).
Proof.
  intros _.
  assert (Hbool : validar_cnpj (JStr s) = Ok true ∨ validar_cnpj (JStr s) = Ok false).
  { rewrite validar_cnpj_str. cbv zeta.
    destruct (negb _ || _); [by right |].
    destruct (default false _); [by left | by right]. }
  split; [| split; [exact Hbool |]].
  - split.
    + intros H. pose proof (validar_cnpj_true_length _ H) as Hlen.
      assert (Hnot : ¬ all_identical (digits_of s)).
      { intros Hall. rewrite (validar_cnpj_str_identical _ Hall) in H. discriminate. }
      destruct (lookup_lt_is_Some_2 (digits_of s) 12) as [c12 H12]; [lia |].
      destruct (lookup_lt_is_Some_2 (digits_of s) 13) as [c13 H13]; [lia |].
      rewrite (validar_cnpj_checks s c12 c13) in H by done.
      injection H as H. apply andb_true_iff in H as [E1 E2].
      apply bool_decide_eq_true_1 in E1, E2. eauto 10.
    + intros (Hlen & Hnot & c12 & c13 & H12 & H13 & E1 & E2).
      rewrite (validar_cnpj_checks s c12 c13) by done.
      by rewrite !bool_decide_eq_true_2.
  - intros s' _ Hs'. rewrite !validar_cnpj_str. cbv zeta. by rewrite Hs'.
Qed.

Lemma X2_validar_cnpj_decides_witness :
  validar_cnpj (JStr "CNPJ: 11.222.333/0001-81") = validar_cnpj (JStr "11222333000181") ∧
  validar_cnpj (JStr "11222333000181") = Ok true.
Proof.
  split.
  - apply (proj2 (proj2 (X2_validar_cnpj_decides "11222333000181" eq_refl)));
      reflexivity.
  - apply (proj1 (X2_validar_cnpj_decides "11222333000181" eq_refl)).
    split; [reflexivity |]. split.
    + intros Hall. assert ("1"%char = "2"%char) as E; [| discriminate E].
      apply Hall; vm_compute; repeat constructor.
    + exists "8"%char, "1"%char. repeat split; vm_compute; reflexivity.
Defined.

(** ** The OCR path on text fields *)

Lemma validar_cnpj_bool s : ∃ b, validar_cnpj (JStr s) = Ok b.
Proof.
  rewrite validar_cnpj_str. cbv zeta.
  destruct (negb _ || _); eauto.
Qed.

Lemma validar_cpf_bool s : ∃ b, validar_cpf (JStr s) = Ok b.
Proof.
  rewrite validar_cpf_str. cbv zeta.
  destruct (negb _ || _); eauto.
Qed.

Lemma truthy_str s : Py.truthy (JStr s) = negb (String.eqb s "").
Proof. reflexivity. Qed.

Lemma validar_cnpj_empty : validar_cnpj (JStr "") = Ok false.
Proof. reflexivity. Qed.

(** The recipient step of the OCR rules on a text. *)
Lemma ocr_recipient_step dest (errors : list string) :
  dest ≠ "" →
  (n ← digit_count (JStr dest);
   c1 ← (if (11 <? n)%nat then v ← validar_cnpj (JStr dest); Ok (negb v)
         else Ok false);
   if c1 : bool then
     Ok (errors ++ ["CNPJ do destinatário '" +:+ Py.str (JStr dest)
                      +:+ "' é inválido."], @nil string)
   else
     n ← digit_count (JStr dest);
     c2 ← (if (n <=? 11)%nat then v ← validar_cpf (JStr dest); Ok (negb v)
           else Ok false);
     if c2 : bool then
       Ok (errors ++ ["CPF do destinatário '" +:+ Py.str (JStr dest)
                        +:+ "' é inválido."], [])
     else Ok (errors, []))
  = Ok (if recipient_valid dest then errors
        else errors ++ [(if (11 <? length (digits_of dest))%nat
                         then "CNPJ do destinatário '" else "CPF do destinatário '")
                          +:+ dest +:+ "' é inválido."], []).
Proof.
  intros _. rewrite !digit_count_str. unfold recipient_valid.
  cbn [mbind result_bind Py.str].
  destruct (Nat.ltb_spec 11 (length (digits_of dest))) as [Hl|Hl].
  - destruct (validar_cnpj_bool dest) as [b ->]. cbn [mbind result_bind].
    destruct b; cbn [negb]; [| reflexivity].
    destruct (Nat.leb_spec (length (digits_of dest)) 11); [lia |]. reflexivity.
  - cbn [mbind result_bind].
    destruct (Nat.leb_spec (length (digits_of dest)) 11); [| lia].
    destruct (validar_cpf_bool dest) as [b ->]. cbn [mbind result_bind].
    destruct b; reflexivity.
Qed.

(** X3. On an OCR record whose issuer and recipient fields are texts or
    absent, the audit always returns a result, and its status is 'error'
    exactly when the issuer ID is missing or invalid, or a recipient ID is
    written and invalid, or the number is missing, or the declared total is
    missing; a missing recipient, date or description never makes an
    error. *)
Theorem X3_ocr_error_status lookup dados :
  Py.mem "erro" dados = false →
  is_ocr (Py.get dados "formato") = true →
  is_text (Py.get dados "emitente_cnpj") →
  is_text (Py.get dados "destinatario_cnpj_cpf") →
  ∃ r,
    auditar_e_salvar_dados_fiscais lookup dados = Ok (Audited r) ∧
    (status r = "error" ↔
       validar_cnpj (Py.get dados "emitente_cnpj") ≠ Ok true ∨
       (∃ d, Py.get dados "destinatario_cnpj_cpf" = JStr d ∧ d ≠ "" ∧
             recipient_valid d = false) ∨
       Py.truthy (Py.get dados "numero") = false ∨
       Py.truthy (Py.get dados "valor_total_nota") = false).
Proof.
  intros Herro Hocr Hemit Hdest.
  unfold auditar_e_salvar_dados_fiscais. rewrite Herro, Hocr.
  unfold _auditar_dados_nfs_ocr.
  set (numero := Py.truthy (Py.get dados "numero")).
  set (total := Py.truthy (Py.get dados "valor_total_nota")).
  set (data := Py.truthy (Py.get dados "data_emissao")).
  set (disc := Py.truthy (Py.get dados "discriminacao_servicos")).
  (* the issuer step *)
  assert (He : ∃ e1 : list string,
    (if negb (Py.truthy (Py.get dados "emitente_cnpj")) then
       Ok ([] ++ ["CNPJ do emitente não informado."])
     else
       v ← validar_cnpj (Py.get dados "emitente_cnpj");
       if negb v then
         Ok ([] ++ ["CNPJ do emitente '"
                      +:+ Py.str (Py.get dados "emitente_cnpj")
                      +:+ "' é inválido."])
       else Ok []) = Ok e1 ∧
    ((e1 = [] ∧ validar_cnpj (Py.get dados "emitente_cnpj") = Ok true) ∨
     (e1 ≠ [] ∧ validar_cnpj (Py.get dados "emitente_cnpj") ≠ Ok true))).
  { destruct (Py.get dados "emitente_cnpj") as [| | |emit| |]; try done.
    - eexists. split; [reflexivity |]. right. split; discriminate.
    - rewrite truthy_str. destruct (String.eqb_spec emit "") as [->|Hne].
      + eexists. split; [reflexivity |]. right. split; discriminate.
      + cbn [negb]. destruct (validar_cnpj_bool emit) as [b Hb]. rewrite Hb.
        destruct b; eexists; (split; [reflexivity |]).
        * left. done.
        * right. split; discriminate. }
  destruct He as (e1 & -> & He1). cbn [mbind result_bind].
  (* the recipient step *)
  assert (Hd : ∃ (e2 w2 : list string),
    (if negb (Py.truthy (Py.get dados "destinatario_cnpj_cpf")) then
       Ok (e1, [] ++ ["CPF/CNPJ do destinatário (tomador) não informado."])
     else
       n ← digit_count (Py.get dados "destinatario_cnpj_cpf");
       c1 ← (if (11 <? n)%nat
             then v ← validar_cnpj (Py.get dados "destinatario_cnpj_cpf"); Ok (negb v)
             else Ok false);
       if c1 : bool then
         Ok (e1 ++ ["CNPJ do destinatário '"
                      +:+ Py.str (Py.get dados "destinatario_cnpj_cpf")
                      +:+ "' é inválido."], [])
       else
         n ← digit_count (Py.get dados "destinatario_cnpj_cpf");
         c2 ← (if (n <=? 11)%nat
               then v ← validar_cpf (Py.get dados "destinatario_cnpj_cpf"); Ok (negb v)
               else Ok false);
         if c2 : bool then
           Ok (e1 ++ ["CPF do destinatário '"
                        +:+ Py.str (Py.get dados "destinatario_cnpj_cpf")
                        +:+ "' é inválido."], [])
         else Ok (e1, [])) = Ok (e1 ++ e2, w2) ∧
    ((e2 = [] ∧ ¬ ∃ d, Py.get dados "destinatario_cnpj_cpf" = JStr d ∧ d ≠ "" ∧
                        recipient_valid d = false) ∨
     (e2 ≠ [] ∧ ∃ d, Py.get dados "destinatario_cnpj_cpf" = JStr d ∧ d ≠ "" ∧
                      recipient_valid d = false))).
  { destruct (Py.get dados "destinatario_cnpj_cpf") as [| | |dest| |]; try done.
    - exists [], ["CPF/CNPJ do destinatário (tomador) não informado."].
      rewrite app_nil_r. split; [reflexivity |].
      left. split; [done |]. intros (d & Hd & _). discriminate.
    - rewrite truthy_str. destruct (String.eqb_spec dest "") as [->|Hne].
      + exists [], ["CPF/CNPJ do destinatário (tomador) não informado."].
        rewrite app_nil_r. split; [reflexivity |].
        left. split; [done |]. intros (d & [= <-] & Hd & _). done.
      + cbn [negb]. rewrite (ocr_recipient_step dest e1 Hne).
        destruct (recipient_valid dest) eqn:Hv.
        * exists [], []. rewrite app_nil_r. split; [reflexivity |].
          left. split; [done |]. intros (d & [= <-] & _ & Hd). congruence.
        * eexists [_], []. split; [reflexivity |].
          right. split; [discriminate | eauto]. }
  destruct Hd as (e2 & w2 & -> & He2). cbn [mbind result_bind].
  eexists. split; [reflexivity |].
  unfold classify. cbn [status issues].
  rewrite status_of_error.
  destruct He1 as [[-> Hv]|[Hne1 Hv]].
  - destruct He2 as [[-> Hp]|[Hne2 Hp]].
    + destruct numero, total; cbn [negb app]; split; try done;
        try (intros _; tauto).
      intros [H | [H | [H | H]]]; done.
    + split; [intros _; tauto |]. intros _ E.
      destruct numero, total; cbn [negb] in E;
        repeat (apply app_eq_nil in E as [E ?]); try done;
        apply app_eq_nil in E as [_ E]; done.
  - split; [intros _; tauto |]. intros _ E.
    destruct numero, total; cbn [negb] in E;
      repeat (apply app_eq_nil in E as [E ?]); done.
Qed.

Lemma X3_ocr_error_status_witness :
  ∃ r, auditar_e_salvar_dados_fiscais Samples.tipi Samples.nota_ocr_sem_data
         = Ok (Audited r) ∧ status r ≠ "error".
Proof.
  destruct (X3_ocr_error_status Samples.tipi Samples.nota_ocr_sem_data)
    as (r & Hr & Hiff); try (vm_compute; done).
  exists r. split; [exact Hr |].
  intros Hs. apply Hiff in Hs as [H | [(d & Hd & _ & Hv) | [H | H]]].
  - apply H. vm_compute. reflexivity.
  - vm_compute in Hd. injection Hd as <-. vm_compute in Hv. discriminate.
  - vm_compute in H. discriminate.
  - vm_compute in H. discriminate.
Defined.

(** ** A structured record that passes every rule *)

Lemma check_ipi_clean prefix it row st :
  (pIPI_of it = Ok JNull ∨
   ∃ v a b, pIPI_of it = Ok v ∧ is_None v = false ∧
            _to_decimal v = Ok a ∧ _to_decimal (aliquota row) = Ok b ∧
            Dec.ne a b = Ok false) →
  check_ipi prefix it row st = Ok st.
Proof.
  unfold check_ipi, pIPI_of. intros H.
  destruct (as_dict (Py.get_default it "imposto" (JObj []))) as [imposto|e];
    [| destruct H as [H | (v & a & b & H & _)]; discriminate H].
  cbn [mbind result_bind] in *.
  destruct (as_dict (Py.get_default imposto "IPI" (JObj []))) as [ipi|e];
    [| destruct H as [H | (v & a & b & H & _)]; discriminate H].
  cbn [mbind result_bind] in *.
  destruct (as_dict (Py.get_default ipi "IPITrib" (JObj []))) as [ipitrib|e];
    [| destruct H as [H | (v & a & b & H & _)]; discriminate H].
  cbn [mbind result_bind] in *.
  destruct H as [[= ->] | (v & a & b & [= ->] & Hv & Ha & Hb & Hne)].
  - reflexivity.
  - rewrite Hv, Ha. cbn [mbind result_bind]. rewrite Hb. cbn [mbind result_bind].
    rewrite Hne. reflexivity.
Qed.

Lemma audit_item_clean lookup i item st v s :
  item_clean lookup item →
  line_total item = Ok v → Dec.add (calculated_sum st) v = Ok s →
  ∃ m, audit_item lookup i item st
       = Ok {| st_issues := st_issues st; st_warnings := st_warnings st;
               st_ncm_info := st_ncm_info st ++ [m]; calculated_sum := s |}.
Proof.
  intros (it & row & c & -> & Hncm & Hrow & Hrate & Hcfop & Hc) Hv Hs.
  unfold audit_item. cbn [as_dict mbind result_bind].
  unfold audit_ncm. rewrite Hncm, Hrow. cbn [negb].
  rewrite (check_ipi_clean _ _ _ _ Hrate). cbn [mbind result_bind].
  unfold audit_cfop. rewrite Hcfop. cbn [Py.truthy in_cfop_codes].
  assert (Hne : negb (String.eqb c "") = true).
  { destruct (String.eqb_spec c "") as [->|]; [| done].
    exfalso. apply (bool_decide_eq_true_2 _) in Hc.
    vm_compute in Hc. discriminate Hc. }
  rewrite Hne. cbn [negb mbind result_bind].
  rewrite (bool_decide_eq_true_2 _ Hc). cbn [negb mbind result_bind].
  unfold audit_valor_total. unfold line_total in Hv. cbn [as_dict mbind result_bind] in Hv.
  cbn [calculated_sum add_ncm_info]. rewrite Hv. cbn [mbind result_bind].
  rewrite Hs. cbn [mbind result_bind try_except].
  eexists. reflexivity.
Qed.

Lemma audit_items_clean lookup items : ∀ i st s,
  Forall (item_clean lookup) items →
  sum_lines items (calculated_sum st) = Ok s →
  ∃ info, audit_items lookup i items st
          = Ok {| st_issues := st_issues st; st_warnings := st_warnings st;
                  st_ncm_info := st_ncm_info st ++ info; calculated_sum := s |} ∧
          length info = length items.
Proof.
  induction items as [|item items IH]; intros i st s Hclean Hsum.
  - injection Hsum as <-. exists []. rewrite app_nil_r. by destruct st.
  - apply Forall_cons in Hclean as [Hitem Hrest]. cbn [sum_lines] in Hsum.
    apply bind_Ok_inv in Hsum as (v & Hv & Hsum).
    apply bind_Ok_inv in Hsum as (s1 & Hs1 & Hsum).
    destruct (audit_item_clean lookup i item st v s1 Hitem Hv Hs1) as (m & Hstep).
    cbn [audit_items]. rewrite Hstep. cbn [mbind result_bind].
    destruct (IH (S i)
                {| st_issues := st_issues st; st_warnings := st_warnings st;
                   st_ncm_info := st_ncm_info st ++ [m]; calculated_sum := s1 |}
                s Hrest Hsum) as (info & -> & Hlen).
    exists (m :: info). cbn [st_issues st_warnings st_ncm_info].
    rewrite <- app_assoc. split; [reflexivity |]. simpl. by rewrite Hlen.
Qed.

Lemma get_default_of_get d k v dflt :
  Py.get d k = v → v ≠ JNull → Py.get_default d k dflt = v.
Proof.
  unfold Py.get, Py.get_default. destruct (Py.lookup k d); [done |].
  intros <-. done.
Qed.

(** X4. A structured record with a number, a valid issuer CNPJ, at least
    one item, every item clean (NCM found, declared rate absent or equal to
    the table's, CFOP in the list, line total parsed and added) and the sum
    of the items within the tolerance of the declared total is audited to
    'success', with no error and no warning, and one NCM note per item. *)
Theorem X4_structured_success lookup dados emit items s t :
  Py.mem "erro" dados = false →
  is_ocr (Py.get dados "formato") = false →
  Py.truthy (Py.get dados "numero") = true →
  Py.get dados "emitente_cnpj" = JStr emit →
  validar_cnpj (JStr emit) = Ok true →
  Py.get_default dados "itens" (JList []) = JList items →
  items ≠ [] →
  Forall (item_clean lookup) items →
  sum_lines items (Dec.Finite false 0 (-2)) = Ok s →
  _to_decimal (Py.get_default dados "valor_total_nota" (JStr "0")) = Ok t →
  exceeds_tolerance s t = Ok false →
  ∃ info,
    auditar_e_salvar_dados_fiscais lookup dados
      = Ok (Audited {| status := "success"; issues := []; warnings := [];
                       ncm_info := info |}) ∧
    length info = length items.
Proof.
  intros Herro Hfmt Hnum Hemit Hvalid Hitens Hne Hclean Hsum Ht Hex.
  assert (Htemit : Py.truthy (JStr emit) = true).
  { apply digits_nonempty_truthy. intros E.
    apply validar_cnpj_true_length in Hvalid. by rewrite E in Hvalid. }
  assert (Hemit' : Py.get_default dados "emitente_cnpj" (JStr "") = JStr emit).
  { by apply get_default_of_get. }
  destruct (audit_items_clean lookup items 1
              {| st_issues := []; st_warnings := []; st_ncm_info := [];
                 calculated_sum := Dec.Finite false 0 (-2) |} s Hclean Hsum)
    as (info & Hloop & Hlen).
  exists info. split; [| exact Hlen].
  unfold auditar_e_salvar_dados_fiscais. rewrite Herro, Hfmt.
  unfold auditar_estruturado, audit_header.
  rewrite Hnum, Hemit, Htemit, Hemit', Hvalid, Hitens.
  cbn [negb mbind result_bind iterate Py.truthy].
  destruct items as [|i0 items']; [done |].
  cbn [negb mbind result_bind].
  rewrite Hloop. cbn [mbind result_bind calculated_sum].
  rewrite Ht. cbn [mbind result_bind]. rewrite Hex. reflexivity.
Qed.

Lemma X4_structured_success_witness :
  ∃ info,
    auditar_e_salvar_dados_fiscais Samples.tipi (Samples.nota_xml "84713012" "100.01")
      = Ok (Audited {| status := "success"; issues := []; warnings := [];
                       ncm_info := info |}) ∧
    length info = 2%nat.
Proof.
  assert (Hitem : ∀ v, item_clean Samples.tipi (Samples.item "84713012" v)).
  { intros v. unfold item_clean, Samples.item.
    eexists _, _, "5102". split; [reflexivity |].
    split; [reflexivity |]. split; [reflexivity |].
    split; [left; reflexivity |]. split; [reflexivity |].
    apply (bool_decide_eq_true_1 ("5102" ∈ VALID_CFOP_CODES)).
    vm_compute. reflexivity. }
  apply (X4_structured_success Samples.tipi (Samples.nota_xml "84713012" "100.01")
           "11222333000181"
           [Samples.item "84713012" "60.00"; Samples.item "84713012" "40,00"]
           (Dec.Finite false 10000 (-2)) (Dec.Finite false 10001 (-2))).
  - reflexivity.
  - reflexivity.
  - reflexivity.
  - reflexivity.
  - vm_compute. reflexivity.
  - reflexivity.
  - discriminate.
  - constructor; [apply Hitem |]. constructor; [apply Hitem |]. constructor.
  - vm_compute. reflexivity.
  - vm_compute. reflexivity.
  - vm_compute. reflexivity.
Defined.
